(** * gestion/views/api_views.py: the JSON endpoints of the point of sale

    A shallow embedding of [gestion/views/api_views.py]: the relational
    store the views read and write, the ORM calls they make, and the views
    themselves, followed by the properties of the sale processor, of the
    supplier-order upsert and of the read-only stock endpoints.

    Conventions.
    - A table is the list of its rows in the order the ORM iterates them;
      [QuerySet.first()] is the head of the filtered list.
    - A [Decimal] amount is the integer number of its smallest currency
      unit, so that sums and products are exact.
    - Integers are Python integers ([Z]); a cart line carries an integer
      id and an integer quantity, either of which may be absent from the
      JSON object.
    - A foreign key is the primary key of the row it references; a view
      that follows one ([select_related], [item.product.name]) joins on it.
    - The insert of a sale that names a client the store does not hold is
      refused by the database; its other failures (a lost connection, a
      number beyond the range of a column) are outside the model.
    - A text is the string of the bytes of its UTF-8 encoding; [len] counts
      its characters and [icontains] folds the case of ASCII letters. *)

From Stdlib Require Import ZArith List String Ascii Bool Lia DecimalString Permutation.
Import ListNotations.
Open Scope string_scope.
Open Scope Z_scope.

(** ** Strings *)

Module Str.

Definition lower_ascii (c : ascii) : ascii :=
  let n := nat_of_ascii c in
  if andb (Nat.leb 65 n) (Nat.leb n 90) then ascii_of_nat (n + 32) else c.

Fixpoint lower (s : string) : string :=
  match s with
  | EmptyString => EmptyString
  | String c r => String (lower_ascii c) (lower r)
  end.

(** [needle in haystack] *)
Fixpoint contains (needle haystack : string) : bool :=
  if String.prefix needle haystack then true
  else match haystack with
       | EmptyString => false
       | String _ r => contains needle r
       end.

(** The [__icontains] lookup. *)
Definition icontains (field needle : string) : bool :=
  contains (lower needle) (lower field).

(** [sep.join(parts)] *)
Fixpoint join (sep : string) (parts : list string) : string :=
  match parts with
  | [] => ""
  | [p] => p
  | p :: rest => p ++ sep ++ join sep rest
  end.

(** The bytes 10xxxxxx continue a character; every other byte starts one. *)
Definition continues (c : ascii) : bool :=
  let n := nat_of_ascii c in
  andb (Nat.leb 128 n) (Nat.ltb n 192).

(** [len(s)]: the number of characters of the text. *)
Fixpoint len (s : string) : nat :=
  match s with
  | EmptyString => O
  | String c r => if continues c then len r else S (len r)
  end.

(** [str(n)] for an integer. *)
Definition of_Z (n : Z) : string := NilZero.string_of_int (Z.to_int n).

(** [str(x)] inside an f-string, for a value that may be [None]. *)
Definition of_opt_Z (x : option Z) : string :=
  match x with
  | Some n => of_Z n
  | None => "None"
  end.

End Str.

(** ** The store *)

Record Warehouse := { Warehouse_id : Z; Warehouse_name : string }.

Record Zone := {
  Zone_id : Z;
  Zone_name : string;
  Zone_warehouse : Z;
  Zone_is_active : bool }.

Record Product := {
  Product_id : Z;
  Product_name : string;
  Product_sku : string;
  precio_venta : option Z;
  Product_is_active : bool }.

(** A ledger row: the stock of one product in one zone. *)
Record Inventory := {
  Inventory_id : Z;
  Inventory_product : Z;
  Inventory_zone : Z;
  Inventory_quantity : Z }.

(** Modelled from the spec: the Client model is declared in models.py, which
    is not among the sources; the spec names it among the domain models and
    gives a sale an optional Client reference.  The views use its primary
    key only. *)
Record Client := { Client_id : Z }.

Record Sale := {
  Sale_id : Z;
  Sale_client_id : option Z;
  Sale_user : Z;
  total_amount : Z }.

Record SaleItem := {
  SaleItem_sale : Z;
  SaleItem_product : Z;
  SaleItem_quantity : Z;
  price_at_sale : Z }.

Record SupplierOrder := {
  SupplierOrder_id : Z;
  SupplierOrder_supplier : Z;
  SupplierOrder_status : string }.

Record SupplierOrderItem := {
  SupplierOrderItem_id : Z;
  SupplierOrderItem_order : Z;
  SupplierOrderItem_product : Z;
  SupplierOrderItem_quantity : Z;
  unit_price : option Z }.

Record ProductSupplier := {
  ProductSupplier_product : Z;
  ProductSupplier_supplier : Z;
  costo : option Z }.

Record Store := {
  warehouses : list Warehouse;
  zones : list Zone;
  products : list Product;
  inventory : list Inventory;
  sales : list Sale;
  sale_items : list SaleItem;
  supplier_orders : list SupplierOrder;
  order_items : list SupplierOrderItem;
  product_suppliers : list ProductSupplier;
  clients : list Client }.

Definition set_inventory (rows : list Inventory) (st : Store) : Store :=
  {| warehouses := warehouses st; zones := zones st; products := products st;
     inventory := rows;
     sales := sales st; sale_items := sale_items st;
     supplier_orders := supplier_orders st; order_items := order_items st;
     product_suppliers := product_suppliers st;
     clients := clients st |}.

Definition set_sales (rows : list Sale) (st : Store) : Store :=
  {| warehouses := warehouses st; zones := zones st; products := products st;
     inventory := inventory st;
     sales := rows; sale_items := sale_items st;
     supplier_orders := supplier_orders st; order_items := order_items st;
     product_suppliers := product_suppliers st;
     clients := clients st |}.

Definition set_sale_items (rows : list SaleItem) (st : Store) : Store :=
  {| warehouses := warehouses st; zones := zones st; products := products st;
     inventory := inventory st;
     sales := sales st; sale_items := rows;
     supplier_orders := supplier_orders st; order_items := order_items st;
     product_suppliers := product_suppliers st;
     clients := clients st |}.

Definition set_order_items (rows : list SupplierOrderItem) (st : Store) : Store :=
  {| warehouses := warehouses st; zones := zones st; products := products st;
     inventory := inventory st;
     sales := sales st; sale_items := sale_items st;
     supplier_orders := supplier_orders st; order_items := rows;
     product_suppliers := product_suppliers st;
     clients := clients st |}.

(** ** Exceptions *)

Inductive Model :=
  MProduct | MInventory | MSupplierOrder.

Inductive Exn :=
| DoesNotExist (m : Model)
| MultipleObjectsReturned (m : Model) (count : nat)
| TypeError (message : string)
| ValueError (message : string)
| ZeroDivisionError
| IntegrityError.

Inductive Result (A : Type) :=
| Ok (a : A)
| Raise (e : Exn).
Arguments Ok {A} a.
Arguments Raise {A} e.

Definition bind {A B} (r : Result A) (k : A -> Result B) : Result B :=
  match r with
  | Ok a => k a
  | Raise e => Raise e
  end.

Notation "'let?' x ':=' r 'in' k" := (bind r (fun x => k))
  (at level 10, x pattern, r at level 100, k at level 200).

Definition model_name (m : Model) : string :=
  match m with
  | MProduct => "Product"
  | MInventory => "Inventory"
  | MSupplierOrder => "SupplierOrder"
  end.

(** [str(e)], the text the catch-all handlers put in the response. *)
Definition str_exn (e : Exn) : string :=
  match e with
  | DoesNotExist m => model_name m ++ " matching query does not exist."
  | MultipleObjectsReturned m count =>
      "get() returned more than one " ++ model_name m ++ " -- it returned "
        ++ Str.of_Z (Z.of_nat count) ++ "!"
  | TypeError message => message
  | ValueError message => message
  | ZeroDivisionError => "integer division or modulo by zero"
  | IntegrityError => "FOREIGN KEY constraint failed"
  end.

(** ** The ORM calls of the views *)

(** [Model.objects.get(...)] on the rows that satisfy the lookup. *)
Definition queryset_get {A} (m : Model) (rows : list A) : Result A :=
  match rows with
  | [] => Raise (DoesNotExist m)
  | [r] => Ok r
  | _ :: _ :: _ => Raise (MultipleObjectsReturned m (List.length rows))
  end.

(** [list.append(x)] *)
Definition append {A} (l : list A) (x : A) : list A := (l ++ [x])%list.

(** [QuerySet.first()] *)
Definition first {A} (rows : list A) : option A := List.hd_error rows.

(** [pk=value], where the value read from the request may be [None]: no
    row has a null primary key. *)
Definition pk_is (value : option Z) (pk : Z) : bool :=
  match value with
  | Some v => v =? pk
  | None => false
  end.

(** [Product.objects.get(id=product_id, is_active=True)] *)
Definition Product_get_active (st : Store) (product_id : option Z) : Result Product :=
  queryset_get MProduct
    (filter (fun p => pk_is product_id (Product_id p) && Product_is_active p)
            (products st)).

(** [Product.objects.get(id=product_id)] *)
Definition Product_get (st : Store) (product_id : option Z) : Result Product :=
  queryset_get MProduct
    (filter (fun p => pk_is product_id (Product_id p)) (products st)).

Definition inventory_of (product : Product) (zone : Zone) (i : Inventory) : bool :=
  (Inventory_product i =? Product_id product) && (Inventory_zone i =? Zone_id zone).

(** [Inventory.objects.get(product=product, zone=sales_zone)] *)
Definition Inventory_get (st : Store) (product : Product) (zone : Zone) : Result Inventory :=
  queryset_get MInventory (filter (inventory_of product zone) (inventory st)).

(** [instance.quantity = q] on a ledger row held in memory. *)
Definition with_quantity (q : Z) (i : Inventory) : Inventory :=
  {| Inventory_id := Inventory_id i;
     Inventory_product := Inventory_product i;
     Inventory_zone := Inventory_zone i;
     Inventory_quantity := q |}.

(** [inventory.save()]: the row with the primary key of the instance takes
    its fields. *)
Definition Inventory_save (i : Inventory) (st : Store) : Store :=
  set_inventory
    (map (fun r => if Inventory_id r =? Inventory_id i then i else r) (inventory st))
    st.

(** The primary key the database gives a new row: one not in the table. *)
Definition next_pk (pks : list Z) : Z := 1 + fold_right Z.max 0 pks.

(** Modelled from the spec: the foreign key of a sale to its client is
    declared in models.py, which is not among the sources; the spec gives a
    sale an optional Client reference: [None], or the primary key of a
    client of the store. *)
Definition client_exists (st : Store) (client_id : option Z) : bool :=
  match client_id with
  | None => true
  | Some c => existsb (fun client => Client_id client =? c) (clients st)
  end.

(** [Sale.objects.create(client_id=..., user=..., total_amount=...)]: the
    database refuses a sale whose client it does not hold. *)
Definition Sale_create (client_id : option Z) (user : Z) (total : Z) (st : Store)
  : Result (Sale * Store) :=
  if client_exists st client_id then
    let sale := {| Sale_id := next_pk (map Sale_id (sales st));
                   Sale_client_id := client_id;
                   Sale_user := user;
                   total_amount := total |} in
    Ok (sale, set_sales (append (sales st) sale) st)
  else Raise IntegrityError.

(** [sale.total_amount = total] *)
Definition with_total_amount (total : Z) (s : Sale) : Sale :=
  {| Sale_id := Sale_id s;
     Sale_client_id := Sale_client_id s;
     Sale_user := Sale_user s;
     total_amount := total |}.

(** [sale.save()] *)
Definition Sale_save (s : Sale) (st : Store) : Store :=
  set_sales (map (fun r => if Sale_id r =? Sale_id s then s else r) (sales st)) st.

(** [SaleItem.objects.create(sale=..., product=..., quantity=..., price_at_sale=...)] *)
Definition SaleItem_create (it : SaleItem) (st : Store) : Store :=
  set_sale_items (append (sale_items st) it) st.

(** [with transaction.atomic(): body]: the writes of a body that raises
    are rolled back. *)
Definition atomic {A} (body : Store -> Result (A * Store)) (st : Store)
  : Result A * Store :=
  match body st with
  | Ok (a, st') => (Ok a, st')
  | Raise e => (Raise e, st)
  end.

(** ** get_sales_zone *)

Definition get_sales_zone (st : Store) : option Zone :=
  let sales_zone :=
    first (filter (fun z => Str.icontains (Zone_name z) "venta" && Zone_is_active z)
                  (zones st)) in
  match sales_zone with
  | Some z => Some z
  | None => first (filter Zone_is_active (zones st))
  end.

(** ** process_sale *)

(** One element of the cart, [{id: ..., quantity: ...}]. *)
Record CartItem := { cart_id : option Z; cart_quantity : option Z }.

(** [item.get('quantity', 0)] *)
Definition get_quantity (item : CartItem) : Z :=
  match cart_quantity item with
  | Some q => q
  | None => 0
  end.

(** The request body: bytes that do not parse, or the object
    [{client_id: ..., cart: [...]}]. *)
Inductive Body :=
| InvalidJson
| Json (client_id : option Z) (cart : list CartItem).

(** The JSON response: the success message carries the id of the sale and
    its total; an error carries the HTTP status and the [errors] text. *)
Inductive Response :=
| Success (sale : Z) (total : Z)
| Error (http_status : Z) (errors : string).

(** [x or Decimal('0.00')] *)
Definition or_zero (x : option Z) : Z :=
  match x with
  | Some v => v
  | None => 0
  end.

(** [client_id if client_id else None] *)
Definition client_or_None (client_id : option Z) : option Z :=
  match client_id with
  | Some c => if c =? 0 then None else Some c
  | None => None
  end.

(** The body of the validation loop for one cart item. *)
Definition validate_item (st : Store) (sales_zone : Zone) (item : CartItem)
                         (errors : list string) : Result (list string) :=
  let product_id := cart_id item in
  let quantity := get_quantity item in
  match Product_get_active st product_id with
  | Ok product =>
      match Inventory_get st product sales_zone with
      | Ok inventory =>
          if Inventory_quantity inventory <? quantity then
            Ok (append errors
                  ("Stock insuficiente para " ++ Product_name product ++ ". " ++
                   "Disponible: " ++ Str.of_Z (Inventory_quantity inventory) ++
                   ", Solicitado: " ++ Str.of_Z quantity))
          else Ok errors
      | Raise (DoesNotExist MInventory) =>
          Ok (append errors
                ("No hay stock de " ++ Product_name product ++ " en la zona de ventas"))
      | Raise e => Raise e
      end
  | Raise (DoesNotExist MProduct) =>
      Ok (append errors
            ("Producto con ID " ++ Str.of_opt_Z product_id ++ " no encontrado"))
  | Raise e => Raise e
  end.

Fixpoint validate_cart (st : Store) (sales_zone : Zone) (cart : list CartItem)
                       (errors : list string) : Result (list string) :=
  match cart with
  | [] => Ok errors
  | item :: rest =>
      let? errors := validate_item st sales_zone item errors in
      validate_cart st sales_zone rest errors
  end.

(** The body of the commit loop for one cart item. *)
Definition sell_item (sale : Sale) (sales_zone : Zone) (item : CartItem)
                     (total_amount : Z) (st : Store) : Result (Z * Store) :=
  let product_id := cart_id item in
  let quantity := get_quantity item in
  let? product := Product_get st product_id in
  let? inventory := Inventory_get st product sales_zone in
  let sale_price := or_zero (precio_venta product) in
  let item_price := sale_price * quantity in
  let st := SaleItem_create {| SaleItem_sale := Sale_id sale;
                               SaleItem_product := Product_id product;
                               SaleItem_quantity := quantity;
                               price_at_sale := sale_price |} st in
  let st := Inventory_save
              (with_quantity (Inventory_quantity inventory - quantity) inventory) st in
  Ok (total_amount + item_price, st).

Fixpoint sell_cart (sale : Sale) (sales_zone : Zone) (cart : list CartItem)
                   (total_amount : Z) (st : Store) : Result (Z * Store) :=
  match cart with
  | [] => Ok (total_amount, st)
  | item :: rest =>
      let? (total_amount, st) := sell_item sale sales_zone item total_amount st in
      sell_cart sale sales_zone rest total_amount st
  end.

(** The block under [transaction.atomic()]. *)
Definition commit_sale (user : Z) (client_id : option Z) (sales_zone : Zone)
                       (cart : list CartItem) (st : Store) : Result (Sale * Store) :=
  let? (sale, st) := Sale_create (client_or_None client_id) user 0 st in
  let? (total_amount, st) := sell_cart sale sales_zone cart 0 st in
  let sale := with_total_amount total_amount sale in
  Ok (sale, Sale_save sale st).

Definition process_sale (user : Z) (body : Body) (st : Store) : Response * Store :=
  match body with
  | InvalidJson => (Error 400 "JSON inválido", st)
  | Json client_id cart =>
      match cart with
      | [] => (Error 400 "El carrito está vacío", st)
      | _ :: _ =>
          match get_sales_zone st with
          | None => (Error 500 "Zona de ventas no configurada", st)
          | Some sales_zone =>
              match validate_cart st sales_zone cart [] with
              | Raise e => (Error 500 ("Error del servidor: " ++ str_exn e), st)
              | Ok ((_ :: _) as errors) => (Error 400 (Str.join "<br>" errors), st)
              | Ok [] =>
                  match atomic (commit_sale user client_id sales_zone cart) st with
                  | (Ok sale, st) => (Success (Sale_id sale) (total_amount sale), st)
                  | (Raise e, st) =>
                      (Error 500 ("Error del servidor: " ++ str_exn e), st)
                  end
              end
          end
      end
  end.

(** ** The read-only endpoints

    A read-only view is a tree of the queries it sends to the store: the
    store is reached through [Do] only, so a view that answers with
    [Return] has sent none. *)

(** [Zone.__str__].  Modelled from the spec: models.py is not among the
    sources; the comment in [get_product_stock_info] gives the shape
    "Zona A (en Bodega Central)". *)
Definition Zone_str (z : Zone) (w : Warehouse) : string :=
  Zone_name z ++ " (en " ++ Warehouse_name w ++ ")".

(** A product with its prefetched [stock] relation, and a ledger row with
    its zone and the warehouse of the zone ([select_related]). *)
Definition ProductWithStock : Type := Product * list Inventory.
Definition InventoryWithZone : Type := Inventory * Zone * Warehouse.

Inductive Query : Type -> Type :=
| (** [Inventory.objects.filter(product_id=.., quantity__gt=0)
       .select_related('zone', 'zone__warehouse')] *)
  Inventory_in_stock (product_id : Z) : Query (list InventoryWithZone)
| (** [Product.objects.filter(Q(name__icontains=q) | Q(sku__icontains=q),
       is_active=True).prefetch_related('stock')[:10]] *)
  Product_search (query : string) : Query (list ProductWithStock)
| (** [Product.objects.filter(is_active=True).prefetch_related('stock')
       .order_by('name')[offset:stop]] *)
  Product_page (offset stop : Z) : Query (list ProductWithStock)
| (** [Product.objects.filter(is_active=True).count()] *)
  Product_count_active : Query Z.

Inductive View (A : Type) : Type :=
| Return (a : A)
| Do {X : Type} (q : Query X) (k : X -> View A).
Arguments Return {A} a.
Arguments Do {A X} q k.

(** [product.stock.all()], the reverse side of [Inventory.product]. *)
Definition stock_all (st : Store) (p : Product) : list Inventory :=
  filter (fun i => Inventory_product i =? Product_id p) (inventory st).

Definition prefetch_stock (st : Store) (p : Product) : ProductWithStock :=
  (p, stock_all st p).

(** The inner joins of [select_related('zone', 'zone__warehouse')]. *)
Definition join_zone (st : Store) (i : Inventory) : list InventoryWithZone :=
  flat_map
    (fun z =>
       map (fun w => (i, z, w))
           (filter (fun w => Warehouse_id w =? Zone_warehouse z) (warehouses st)))
    (filter (fun z => Zone_id z =? Inventory_zone i) (zones st)).

(** [order_by('name')]: a stable sort on the name. *)
Fixpoint insert_by_name (p : Product) (l : list Product) : list Product :=
  match l with
  | [] => [p]
  | q :: r =>
      if String.leb (Product_name p) (Product_name q) then p :: l
      else q :: insert_by_name p r
  end.

Definition order_by_name (l : list Product) : list Product :=
  fold_right insert_by_name [] l.

(** [rows[offset:stop]] for bounds that are not negative. *)
Definition slice {A} (offset stop : Z) (rows : list A) : list A :=
  firstn (Z.to_nat (stop - offset)) (skipn (Z.to_nat offset) rows).

Definition exec {X} (q : Query X) (st : Store) : X :=
  match q with
  | Inventory_in_stock product_id =>
      flat_map (join_zone st)
        (filter (fun i => (Inventory_product i =? product_id)
                          && (0 <? Inventory_quantity i))
                (inventory st))
  | Product_search query =>
      map (prefetch_stock st)
        (firstn 10
           (filter (fun p => (Str.icontains (Product_name p) query
                              || Str.icontains (Product_sku p) query)
                             && Product_is_active p)
                   (products st)))
  | Product_page offset stop =>
      map (prefetch_stock st)
        (slice offset stop (order_by_name (filter Product_is_active (products st))))
  | Product_count_active =>
      Z.of_nat (List.length (filter Product_is_active (products st)))
  end.

(** The answer of a view on a store, and the number of queries it sends. *)
Fixpoint run {A} (v : View A) (st : Store) : A :=
  match v with
  | Return a => a
  | Do q k => run (k (exec q st)) st
  end.

Fixpoint queries {A} (v : View A) (st : Store) : nat :=
  match v with
  | Return _ => O
  | Do q k => S (queries (k (exec q st)) st)
  end.

(** *** get_product_stock_info *)

Record StockInfo := { info_zone_id : Z; info_zone_name : string; info_stock : Z }.

Inductive StockResponse :=
| StockSuccess (stock_info : list StockInfo).

Definition get_product_stock_info (product_id : Z) : View StockResponse :=
  Do (Inventory_in_stock product_id) (fun stock_items =>
  let zones_with_stock :=
    fold_left
      (fun acc (item : InventoryWithZone) =>
         let '(i, zone, warehouse) := item in
         append acc {| info_zone_id := Zone_id zone;
                       info_zone_name := Zone_str zone warehouse;
                       info_stock := Inventory_quantity i |})
      stock_items [] in
  Return (StockSuccess zones_with_stock)).

(** *** search_products_for_sale and get_all_products_for_sale *)

Record ProductEntry := {
  entry_id : Z;
  entry_name : string;
  entry_sku : string;
  entry_price : Z;
  entry_stock : Z }.

(** [sum(item.quantity for item in product.stock.all())] *)
Definition total_stock (stock : list Inventory) : Z :=
  fold_left (fun acc item => acc + Inventory_quantity item) stock 0.

(** The body of the loop that both product endpoints run over a page. *)
Definition product_entries (products : list ProductWithStock) : list ProductEntry :=
  fold_left
    (fun results (ps : ProductWithStock) =>
       let '(product, stock) := ps in
       let available_stock := total_stock stock in
       let precio_venta := or_zero (precio_venta product) in
       append results {| entry_id := Product_id product;
                         entry_name := Product_name product;
                         entry_sku := Product_sku product;
                         entry_price := precio_venta;
                         entry_stock := available_stock |})
    products [].

(** [request.query_params] of the search endpoint. *)
Record SearchParams := { param_q : option string; param_query : option string }.

(** [params.get(key, '')] *)
Definition get_or_empty (v : option string) : string :=
  match v with
  | Some s => s
  | None => ""
  end.

(** [a or b] on strings *)
Definition str_or (a b : string) : string :=
  match a with
  | EmptyString => b
  | _ => a
  end.

Inductive ProductsResponse :=
| ProductsSuccess (products : list ProductEntry)
| ProductsPage (products : list ProductEntry) (count page page_size total_pages : Z)
| ProductsError (http_status : Z) (message : string).

Definition search_products_for_sale (params : SearchParams) : View ProductsResponse :=
  let query := str_or (get_or_empty (param_q params))
                      (get_or_empty (param_query params)) in
  if (Str.len query <? 2)%nat then Return (ProductsSuccess [])
  else
    Do (Product_search query) (fun products =>
    Return (ProductsSuccess (product_entries products))).

(** A query parameter read through [int(...)]: absent, not the text of an
    integer, or an integer. *)
Inductive IntParam := Absent | NotAnInteger (text : string) | Int (n : Z).

Definition int_param (p : IntParam) (default : Z) : Result Z :=
  match p with
  | Absent => Ok default
  | NotAnInteger text =>
      Raise (ValueError ("invalid literal for int() with base 10: '" ++ text ++ "'"))
  | Int n => Ok n
  end.

Record PageParams := { param_page : IntParam; param_page_size : IntParam }.

(** [a // b] *)
Definition floordiv (a b : Z) : Result Z :=
  if b =? 0 then Raise ZeroDivisionError else Ok (a / b).

Definition server_error (e : Exn) : ProductsResponse :=
  ProductsError 500 (str_exn e).

Definition get_all_products_for_sale (params : PageParams) : View ProductsResponse :=
  match int_param (param_page params) 1 with
  | Raise e => Return (server_error e)
  | Ok page =>
      match int_param (param_page_size params) 50 with
      | Raise e => Return (server_error e)
      | Ok page_size =>
          let offset := (page - 1) * page_size in
          if (offset <? 0) || (offset + page_size <? 0)
          then Return (server_error (ValueError "Negative indexing is not supported."))
          else
            Do Product_count_active (fun total =>
            Do (Product_page offset (offset + page_size)) (fun products =>
            let results := product_entries products in
            match floordiv (total + page_size - 1) page_size with
            | Raise e => Return (server_error e)
            | Ok total_pages =>
                Return (ProductsPage results total page page_size total_pages)
            end))
      end
  end.

(** ** add_product_to_order *)

Record Profile := { role : string }.

(** [request.user]; [profile] is [None] when the user has no such
    attribute. *)
Record User := { is_superuser : bool; profile : option Profile }.

(** The condition negated by the first [if] of the view. *)
Definition may_modify_orders (user : User) : bool :=
  is_superuser user
  || match profile user with
     | Some p => String.eqb (role p) "admin" || String.eqb (role p) "bodega"
     | None => false
     end.

(** The request body of the order view: [{product_id: ..., quantity: ...}]. *)
Inductive OrderBody :=
| OrderInvalidJson
| OrderJson (product_id : option Z) (quantity : option Z).

Record ItemData := {
  data_id : Z;
  data_product_name : string;
  data_quantity : Z;
  data_unit_price : string;
  data_subtotal : string }.

Inductive OrderResponse :=
| OrderSuccess (message action : string) (item : ItemData)
               (all_items : list ItemData) (total_items total_quantity : Z)
| OrderError (http_status : Z) (message : string).

(** [SupplierOrder.objects.get(pk=order_pk)] *)
Definition SupplierOrder_get (st : Store) (order_pk : Z) : Result SupplierOrder :=
  queryset_get MSupplierOrder
    (filter (fun o => SupplierOrder_id o =? order_pk) (supplier_orders st)).

(** [ProductSupplier.objects.filter(product=product, supplier=order.supplier)] *)
Definition ProductSupplier_filter (st : Store) (product : Product) (order : SupplierOrder)
  : list ProductSupplier :=
  filter (fun ps => (ProductSupplier_product ps =? Product_id product)
                    && (ProductSupplier_supplier ps =? SupplierOrder_supplier order))
         (product_suppliers st).

Definition item_of (order : SupplierOrder) (product : Product)
                   (it : SupplierOrderItem) : bool :=
  (SupplierOrderItem_order it =? SupplierOrder_id order)
  && (SupplierOrderItem_product it =? Product_id product).

(** [SupplierOrderItem.objects.filter(order=order, product=product)] *)
Definition SupplierOrderItem_filter (st : Store) (order : SupplierOrder) (product : Product)
  : list SupplierOrderItem :=
  filter (item_of order product) (order_items st).

(** [existing_item.save()] *)
Definition SupplierOrderItem_save (it : SupplierOrderItem) (st : Store) : Store :=
  set_order_items
    (map (fun r => if SupplierOrderItem_id r =? SupplierOrderItem_id it then it else r)
         (order_items st))
    st.

(** [SupplierOrderItem.objects.create(order=..., product=..., quantity=...,
    unit_price=...)] *)
Definition SupplierOrderItem_create (order : SupplierOrder) (product : Product)
                                    (quantity : Z) (price : option Z) (st : Store)
  : SupplierOrderItem * Store :=
  let it := {| SupplierOrderItem_id := next_pk (map SupplierOrderItem_id (order_items st));
               SupplierOrderItem_order := SupplierOrder_id order;
               SupplierOrderItem_product := Product_id product;
               SupplierOrderItem_quantity := quantity;
               unit_price := price |} in
  (it, set_order_items (append (order_items st) it) st).

(** [product_supplier.costo if product_supplier.costo else product.precio_venta]:
    a cost that is [None] or zero is falsy. *)
Definition resolve_unit_price (product_supplier : ProductSupplier) (product : Product)
  : option Z :=
  match costo product_supplier with
  | Some c => if c =? 0 then precio_venta product else Some c
  | None => precio_venta product
  end.

(** [SupplierOrderItem.subtotal].  Modelled from the spec: the property is
    declared in models.py, which is not among the sources; the spec gives
    subtotal = quantity * unit_price, which raises on a price of [None]. *)
Definition subtotal (it : SupplierOrderItem) : Result Z :=
  match unit_price it with
  | Some p => Ok (SupplierOrderItem_quantity it * p)
  | None => Raise (TypeError "unsupported operand type(s) for *: 'int' and 'NoneType'")
  end.

Definition item_data (it : SupplierOrderItem) (product : Product) : Result ItemData :=
  let? sub := subtotal it in
  Ok {| data_id := SupplierOrderItem_id it;
        data_product_name := Product_name product;
        data_quantity := SupplierOrderItem_quantity it;
        data_unit_price := Str.of_opt_Z (unit_price it);
        data_subtotal := Str.of_Z sub |}.

(** [SupplierOrderItem.objects.filter(order=order).select_related('product')] *)
Definition order_items_with_product (st : Store) (order : SupplierOrder)
  : list (SupplierOrderItem * Product) :=
  flat_map
    (fun it => map (fun p => (it, p))
                   (filter (fun p => Product_id p =? SupplierOrderItem_product it)
                           (products st)))
    (filter (fun it => SupplierOrderItem_order it =? SupplierOrder_id order)
            (order_items st)).

(** The loop that serialises the items of the order. *)
Fixpoint all_items_data (items : list (SupplierOrderItem * Product))
                        (items_data : list ItemData) (total_quantity : Z)
  : Result (list ItemData * Z) :=
  match items with
  | [] => Ok (items_data, total_quantity)
  | (order_item, product) :: rest =>
      let? d := item_data order_item product in
      all_items_data rest (append items_data d)
                     (total_quantity + SupplierOrderItem_quantity order_item)
  end.

(** The view writes outside any transaction: the line is saved before the
    response is built.  [item.product] of the line just written is the
    product the view fetched, the row with that primary key. *)
Definition add_product_to_order (user : User) (order_pk : Z) (body : OrderBody)
                                (st : Store) : OrderResponse * Store :=
  if negb (may_modify_orders user) then (OrderError 403 "No tienes permisos", st)
  else
    match SupplierOrder_get st order_pk with
    | Raise (DoesNotExist MSupplierOrder) => (OrderError 404 "Orden no encontrada", st)
    | Raise e => (OrderError 500 (str_exn e), st)
    | Ok order =>
        if negb (String.eqb (SupplierOrder_status order) "PENDING") then
          (OrderError 400 "No se pueden modificar órdenes que no están pendientes", st)
        else
          match body with
          | OrderInvalidJson => (OrderError 400 "JSON inválido", st)
          | OrderJson product_id quantity =>
              let quantity := match quantity with Some q => q | None => 1 end in
              if quantity <=? 0 then
                (OrderError 400 "La cantidad debe ser mayor a 0", st)
              else
                match Product_get_active st product_id with
                | Raise (DoesNotExist MProduct) =>
                    (OrderError 404 "Producto no encontrado", st)
                | Raise e => (OrderError 500 (str_exn e), st)
                | Ok product =>
                    match first (ProductSupplier_filter st product order) with
                    | None =>
                        (OrderError 400
                           "Este producto no pertenece al proveedor de la orden", st)
                    | Some product_supplier =>
                        let price := resolve_unit_price product_supplier product in
                        let existing_item :=
                          first (SupplierOrderItem_filter st order product) in
                        let '(item, action, st) :=
                          match existing_item with
                          | Some existing_item =>
                              let item :=
                                {| SupplierOrderItem_id := SupplierOrderItem_id existing_item;
                                   SupplierOrderItem_order := SupplierOrderItem_order existing_item;
                                   SupplierOrderItem_product := SupplierOrderItem_product existing_item;
                                   SupplierOrderItem_quantity :=
                                     SupplierOrderItem_quantity existing_item + quantity;
                                   unit_price := price |} in
                              (item, "updated", SupplierOrderItem_save item st)
                          | None =>
                              let '(item, st) :=
                                SupplierOrderItem_create order product quantity price st in
                              (item, "created", st)
                          end in
                        match
                          (let? (items_data, total_quantity) :=
                             all_items_data (order_items_with_product st order) [] 0 in
                           let? d := item_data item product in
                           Ok (OrderSuccess
                                 ("Producto " ++ Product_name product
                                    ++ " agregado exitosamente")
                                 action d items_data
                                 (Z.of_nat (List.length items_data)) total_quantity))
                        with
                        | Ok response => (response, st)
                        | Raise e => (OrderError 500 (str_exn e), st)
                        end
                    end
                end
          end
    end.

(** ** The constraints of the schema

    Primary keys are unique, and the ledger holds one row per
    (product, zone) pair. *)

Definition inventory_key (i : Inventory) : Z * Z :=
  (Inventory_product i, Inventory_zone i).

Definition key_eqb (a b : Z * Z) : bool :=
  (fst a =? fst b) && (snd a =? snd b).

Fixpoint distinct {K} (eqb : K -> K -> bool) (l : list K) : bool :=
  match l with
  | [] => true
  | k :: r => negb (existsb (eqb k) r) && distinct eqb r
  end.

Definition Store_ok (st : Store) : bool :=
  distinct Z.eqb (map Product_id (products st))
  && distinct Z.eqb (map Inventory_id (inventory st))
  && distinct key_eqb (map inventory_key (inventory st)).

(** ** The outcome of a checkout, in the words of the specification *)

(** The ledger after [quantity] units of [product] left [zone]. *)
Definition take_stock (product : Product) (zone : Zone) (quantity : Z)
                      (rows : list Inventory) : list Inventory :=
  map (fun r => if inventory_of product zone r
                then with_quantity (Inventory_quantity r - quantity) r else r)
      rows.

(** The quantity a cart requests of the product [pid], over all its lines. *)
Definition requested (cart : list CartItem) (pid : Z) : Z :=
  fold_right (fun item acc =>
                if pk_is (cart_id item) pid then get_quantity item + acc else acc)
             0 cart.

(** The ledger after every line of the cart was taken from [zone]. *)
Definition stock_after (zone : Zone) (cart : list CartItem)
                       (rows : list Inventory) : list Inventory :=
  map (fun r => if Inventory_zone r =? Zone_id zone
                then with_quantity
                       (Inventory_quantity r - requested cart (Inventory_product r)) r
                else r)
      rows.

(** [si] is the sale line of the cart line [item]: it names the product of
    the line and the quantity of the line, at the current price of the
    product. *)
Definition sale_item_of (catalog : list Product) (sale_pk : Z)
                        (item : CartItem) (si : SaleItem) : Prop :=
  exists p, In p catalog
            /\ cart_id item = Some (Product_id p)
            /\ si = {| SaleItem_sale := sale_pk;
                       SaleItem_product := Product_id p;
                       SaleItem_quantity := get_quantity item;
                       price_at_sale := or_zero (precio_venta p) |}.

(** The sum over the sale lines of price_at_sale * quantity. *)
Definition amount (items : list SaleItem) : Z :=
  fold_right (fun si acc => price_at_sale si * SaleItem_quantity si + acc) 0 items.

(** The request names no client, or the client zero, which the view reads
    as none, or a client of the store. *)
Definition names_client (st : Store) (client_id : option Z) : Prop :=
  forall c, client_id = Some c -> c <> 0 ->
            exists client, In client (clients st) /\ Client_id client = c.

(** The cart line [item] names the active product [p], whose row in [zone]
    is [inv]. *)
Definition line_in_stock (st : Store) (zone : Zone) (item : CartItem)
                         (p : Product) (inv : Inventory) : Prop :=
  In p (products st)
  /\ cart_id item = Some (Product_id p)
  /\ Product_is_active p = true
  /\ In inv (inventory st)
  /\ inventory_of p zone inv = true.

(** ** The outcome of the validation of a cart line, in the words of the
    specification *)

Inductive LineStatus :=
| UnknownProduct
  (** no active product carries the id of the line *)
| NoLedgerRow (p : Product)
  (** the product has no row in the sales zone *)
| InsufficientStock (p : Product) (inv : Inventory)
  (** the line requests more than the row holds *)
| InStock (p : Product) (inv : Inventory).

Definition line_status (st : Store) (zone : Zone) (item : CartItem) : LineStatus :=
  match find (fun p => pk_is (cart_id item) (Product_id p) && Product_is_active p)
             (products st) with
  | None => UnknownProduct
  | Some p =>
      match find (inventory_of p zone) (inventory st) with
      | None => NoLedgerRow p
      | Some inv =>
          if Inventory_quantity inv <? get_quantity item
          then InsufficientStock p inv else InStock p inv
      end
  end.

Definition fails (st : Store) (zone : Zone) (item : CartItem) : bool :=
  match line_status st zone item with
  | InStock _ _ => false
  | _ => true
  end.

(** The message of a line that fails. *)
Definition line_error (item : CartItem) (s : LineStatus) : list string :=
  match s with
  | UnknownProduct =>
      ["Producto con ID " ++ Str.of_opt_Z (cart_id item) ++ " no encontrado"]
  | NoLedgerRow p =>
      ["No hay stock de " ++ Product_name p ++ " en la zona de ventas"]
  | InsufficientStock p inv =>
      ["Stock insuficiente para " ++ Product_name p ++ ". " ++
       "Disponible: " ++ Str.of_Z (Inventory_quantity inv) ++
       ", Solicitado: " ++ Str.of_Z (get_quantity item)]
  | InStock _ _ => []
  end.

(** The messages of the lines of a cart that fail, in the order of the
    cart. *)
Definition line_errors (st : Store) (zone : Zone) (cart : list CartItem) : list string :=
  flat_map (fun item => line_error item (line_status st zone item)) cart.

(** [x] is the first element of [l] that satisfies [P]. *)
Definition first_such {A} (P : A -> bool) (l : list A) (x : A) : Prop :=
  exists before after,
    l = (before ++ x :: after)%list
    /\ P x = true
    /\ forall y, In y before -> P y = false.

(** The zones [get_sales_zone] prefers: active, with a name that contains
    "venta" in any case. *)
Definition named_for_sales (z : Zone) : bool :=
  Str.icontains (Zone_name z) "venta" && Zone_is_active z.

(** ** A small shop, for the examples *)

Definition central : Warehouse :=
  {| Warehouse_id := 1; Warehouse_name := "Bodega Central" |}.

Definition zona_a : Zone :=
  {| Zone_id := 1; Zone_name := "Zona A"; Zone_warehouse := 1; Zone_is_active := true |}.

Definition ventas : Zone :=
  {| Zone_id := 2; Zone_name := "Sala de Ventas"; Zone_warehouse := 1;
     Zone_is_active := true |}.

Definition alfajor : Product :=
  {| Product_id := 5; Product_name := "Alfajor"; Product_sku := "ALF-005";
     precio_venta := Some 1000; Product_is_active := true |}.

(** A product taken out of the catalogue, with stock left in the sales
    zone. *)
Definition galleta : Product :=
  {| Product_id := 6; Product_name := "Galleta"; Product_sku := "GAL-006";
     precio_venta := Some 500; Product_is_active := false |}.

(** An active product that no supplier of the shop declares. *)
Definition yerba : Product :=
  {| Product_id := 7; Product_name := "Yerba"; Product_sku := "YER-007";
     precio_venta := Some 2500; Product_is_active := true |}.

Definition alfajor_en_zona_a : Inventory :=
  {| Inventory_id := 1; Inventory_product := 5; Inventory_zone := 1;
     Inventory_quantity := 0 |}.

Definition alfajor_en_ventas : Inventory :=
  {| Inventory_id := 2; Inventory_product := 5; Inventory_zone := 2;
     Inventory_quantity := 10 |}.

Definition galleta_en_ventas : Inventory :=
  {| Inventory_id := 3; Inventory_product := 6; Inventory_zone := 2;
     Inventory_quantity := 4 |}.

Definition pending_order : SupplierOrder :=
  {| SupplierOrder_id := 1; SupplierOrder_supplier := 70;
     SupplierOrder_status := "PENDING" |}.

Definition received_order : SupplierOrder :=
  {| SupplierOrder_id := 2; SupplierOrder_supplier := 70;
     SupplierOrder_status := "RECEIVED" |}.

Definition shop : Store :=
  {| warehouses := [central];
     zones := [zona_a; ventas];
     products := [alfajor; galleta; yerba];
     inventory := [alfajor_en_zona_a; alfajor_en_ventas; galleta_en_ventas];
     sales := [];
     sale_items := [];
     supplier_orders := [pending_order; received_order];
     order_items := [];
     product_suppliers :=
       [{| ProductSupplier_product := 5; ProductSupplier_supplier := 70;
           costo := Some 600 |}];
     clients := [{| Client_id := 3 |}] |}.

(** The shop with every zone closed. *)
Definition shop_without_zones : Store :=
  {| warehouses := warehouses shop;
     zones := [];
     products := products shop;
     inventory := inventory shop;
     sales := sales shop;
     sale_items := sale_items shop;
     supplier_orders := supplier_orders shop;
     order_items := order_items shop;
     product_suppliers := product_suppliers shop;
     clients := clients shop |}.

(** The cart line [{id: id, quantity: quantity}]. *)
Definition line (id quantity : Z) : CartItem :=
  {| cart_id := Some id; cart_quantity := Some quantity |}.

(** A warehouse keeper, who may modify supplier orders, and a cashier, who
    may not. *)
Definition bodeguero : User :=
  {| is_superuser := false; profile := Some {| role := "bodega" |} |}.

Definition cajero : User :=
  {| is_superuser := false; profile := Some {| role := "ventas" |} |}.

(** The shop when the pending order already holds five alfajores. *)
Definition shop_with_line : Store :=
  set_order_items
    [{| SupplierOrderItem_id := 1; SupplierOrderItem_order := 1;
        SupplierOrderItem_product := 5; SupplierOrderItem_quantity := 5;
        unit_price := Some 600 |}]
    shop.

(** The shop when the supplier has raised the cost of the alfajor. *)
Definition raise_cost (st : Store) : Store :=
  {| warehouses := warehouses st;
     zones := zones st;
     products := products st;
     inventory := inventory st;
     sales := sales st;
     sale_items := sale_items st;
     supplier_orders := supplier_orders st;
     order_items := order_items st;
     product_suppliers :=
       [{| ProductSupplier_product := 5; ProductSupplier_supplier := 70;
           costo := Some 750 |}];
     clients := clients st |}.

(** A shop where no zone is named for sales. *)
Definition shop_with_plain_zones : Store :=
  {| warehouses := warehouses shop;
     zones := [{| Zone_id := 3; Zone_name := "Pasillo"; Zone_warehouse := 1;
                  Zone_is_active := false |};
               zona_a;
               {| Zone_id := 4; Zone_name := "Zona B"; Zone_warehouse := 1;
                  Zone_is_active := true |}];
     products := products shop;
     inventory := inventory shop;
     sales := sales shop;
     sale_items := sale_items shop;
     supplier_orders := supplier_orders shop;
     order_items := order_items shop;
     product_suppliers := product_suppliers shop;
     clients := clients shop |}.

(** ** The two readings of the stock of a product, in the words of the
    specification *)

(** The total stock of a product: the sum of the quantity over all the
    rows of the ledger that name it, whatever the quantity. *)
Definition stock_sum (st : Store) (pid : Z) : Z :=
  fold_right Z.add 0
    (map Inventory_quantity
         (filter (fun i => Inventory_product i =? pid) (inventory st))).

(** The entry that the product endpoints report for a product. *)
Definition entry_of (st : Store) (p : Product) : ProductEntry :=
  {| entry_id := Product_id p;
     entry_name := Product_name p;
     entry_sku := Product_sku p;
     entry_price := or_zero (precio_venta p);
     entry_stock := stock_sum st (Product_id p) |}.

(** The entry that the stock lookup reports for a ledger row. *)
Definition info_of (row : InventoryWithZone) : StockInfo :=
  let '(i, zone, warehouse) := row in
  {| info_zone_id := Zone_id zone;
     info_zone_name := Zone_str zone warehouse;
     info_stock := Inventory_quantity i |}.

(** The query string the search endpoint looks for. *)
Definition search_query (params : SearchParams) : string :=
  str_or (get_or_empty (param_q params)) (get_or_empty (param_query params)).

(** ** The other endpoints of the module *)

(** *** get_product_warehouses_and_zones *)

Record ZoneStock := { zs_id : Z; zs_name : string; zs_stock : Z }.

Record WarehouseGroup := {
  group_id : Z;
  group_name : string;
  group_zones : list ZoneStock }.

Inductive WarehousesResponse :=
| WarehousesSuccess (warehouses : list WarehouseGroup).

(** [warehouses_dict]: a Python dict keeps its keys in insertion order, so
    it is the list of its (key, value) pairs in that order. *)
Definition WarehousesDict : Type := list (Z * WarehouseGroup).

(** [key in d] *)
Definition dict_contains (key : Z) (d : WarehousesDict) : bool :=
  existsb (fun kv => fst kv =? key) d.

(** [d[key] = value] *)
Definition dict_setitem (key : Z) (value : WarehouseGroup) (d : WarehousesDict)
  : WarehousesDict :=
  if dict_contains key d
  then map (fun kv => if fst kv =? key then (key, value) else kv) d
  else append d (key, value).

(** [d[key]['zones'].append(zone)], for a key that is in the dict. *)
Definition dict_append_zone (key : Z) (zone : ZoneStock) (d : WarehousesDict)
  : WarehousesDict :=
  map (fun kv =>
         if fst kv =? key
         then (fst kv, {| group_id := group_id (snd kv);
                          group_name := group_name (snd kv);
                          group_zones := append (group_zones (snd kv)) zone |})
         else kv)
      d.

(** [list(d.values())] *)
Definition dict_values (d : WarehousesDict) : list WarehouseGroup := map snd d.

(** The body of the grouping loop. *)
Definition group_item (warehouses_dict : WarehousesDict) (item : InventoryWithZone)
  : WarehousesDict :=
  let '(i, zone, warehouse) := item in
  let warehouse_id := Warehouse_id warehouse in
  let warehouse_name := Warehouse_name warehouse in
  let warehouses_dict :=
    if negb (dict_contains warehouse_id warehouses_dict)
    then dict_setitem warehouse_id
           {| group_id := warehouse_id; group_name := warehouse_name;
              group_zones := [] |}
           warehouses_dict
    else warehouses_dict in
  dict_append_zone warehouse_id
    {| zs_id := Zone_id zone; zs_name := Zone_name zone;
       zs_stock := Inventory_quantity i |}
    warehouses_dict.

Definition get_product_warehouses_and_zones (product_id : Z)
  : View WarehousesResponse :=
  Do (Inventory_in_stock product_id) (fun stock_items =>
  let warehouses_dict := fold_left group_item stock_items [] in
  let warehouses_list := dict_values warehouses_dict in
  Return (WarehousesSuccess warehouses_list)).

(** *** get_all_zones and get_zones_by_warehouse

    The remaining views read the store once and write nothing: each is a
    function of the store. *)

Record ZoneEntry := { zone_entry_id : Z; zone_entry_name : string }.

(** The inner join of [select_related('warehouse')]. *)
Definition with_warehouse (st : Store) (z : Zone) : list (Zone * Warehouse) :=
  map (fun w => (z, w))
      (filter (fun w => Warehouse_id w =? Zone_warehouse z) (warehouses st)).

(** [Zone.objects.filter(is_active=True).select_related('warehouse')] *)
Definition get_all_zones (st : Store) : list ZoneEntry :=
  map (fun zw : Zone * Warehouse =>
         {| zone_entry_id := Zone_id (fst zw);
            zone_entry_name := Zone_str (fst zw) (snd zw) |})
      (flat_map (with_warehouse st) (filter Zone_is_active (zones st))).

(** [Zone.objects.filter(warehouse_id=warehouse_id, is_active=True)
    .select_related('warehouse')] *)
Definition get_zones_by_warehouse (st : Store) (warehouse_id : Z) : list ZoneEntry :=
  map (fun zw : Zone * Warehouse =>
         {| zone_entry_id := Zone_id (fst zw);
            zone_entry_name := Zone_name (fst zw) |})
      (flat_map (with_warehouse st)
         (filter (fun z => (Zone_warehouse z =? warehouse_id) && Zone_is_active z)
                 (zones st))).

(** *** get_product_price *)

Inductive PriceResponse :=
| PriceSuccess (price name : string)
| PriceError (http_status : Z) (message : string).

Definition get_product_price (st : Store) (product_id : Z) : PriceResponse :=
  match Product_get_active st (Some product_id) with
  | Ok product =>
      PriceSuccess (Str.of_Z (or_zero (precio_venta product))) (Product_name product)
  | Raise (DoesNotExist MProduct) => PriceError 404 "Producto no encontrado"
  | Raise e => PriceError 500 (str_exn e)
  end.

(** *** get_order_items *)

Inductive ItemsResponse :=
| ItemsSuccess (items : list ItemData) (total_items total_quantity : Z)
| ItemsError (http_status : Z) (message : string).

Definition get_order_items (st : Store) (order_pk : Z) : ItemsResponse :=
  match SupplierOrder_get st order_pk with
  | Raise (DoesNotExist MSupplierOrder) => ItemsError 404 "Orden no encontrada"
  | Raise e => ItemsError 500 (str_exn e)
  | Ok order =>
      match all_items_data (order_items_with_product st order) [] 0 with
      | Ok (items_data, total_quantity) =>
          ItemsSuccess items_data (Z.of_nat (List.length items_data)) total_quantity
      | Raise e => ItemsError 500 (str_exn e)
      end
  end.

(** ** Words for the further properties *)

(** The zone entry of a row of the stock lookup. *)
Definition zone_stock_of (row : InventoryWithZone) : ZoneStock :=
  let '(i, zone, warehouse) := row in
  {| zs_id := Zone_id zone; zs_name := Zone_name zone;
     zs_stock := Inventory_quantity i |}.

(** The warehouse of a row of the stock lookup. *)
Definition warehouse_of (row : InventoryWithZone) : Z :=
  let '(_, _, warehouse) := row in Warehouse_id warehouse.

(** Every ledger row names one zone of the store, and every zone one
    warehouse: the foreign keys resolve. *)
Definition Refs_ok (st : Store) : bool :=
  forallb (fun i => Nat.eqb (List.length (filter (fun z => Zone_id z =? Inventory_zone i)
                                                 (zones st))) 1)
          (inventory st)
  && forallb (fun z => Nat.eqb (List.length (filter (fun w => Warehouse_id w
                                                              =? Zone_warehouse z)
                                                    (warehouses st))) 1)
             (zones st).


(** The request for one page of the listing. *)
Definition page_request (page page_size : Z) : PageParams :=
  {| param_page := Int page; param_page_size := Int page_size |}.

(** The active products a search for [query] matches. *)
Definition matches (query : string) (p : Product) : bool :=
  (Str.icontains (Product_name p) query || Str.icontains (Product_sku p) query)
  && Product_is_active p.

Definition item_key (it : SupplierOrderItem) : Z * Z :=
  (SupplierOrderItem_order it, SupplierOrderItem_product it).

(** The invariant of the upsert: the lines of the orders have unique
    primary keys, and an order holds at most one line per product. *)
Definition Items_ok (st : Store) : Prop :=
  NoDup (map SupplierOrderItem_id (order_items st))
  /\ NoDup (map item_key (order_items st)).

(** What the grouping loop keeps true of its dict once it has gone through
    the rows [done]: no key twice; under each key the group of that
    warehouse, holding the zones of the rows of the warehouse in their
    order, at least one; and a key for the warehouse of every row. *)
Definition Grouped (d : WarehousesDict) (done : list InventoryWithZone) : Prop :=
  NoDup (map fst d)
  /\ (forall k g, In (k, g) d ->
        group_id g = k
        /\ group_zones g
           = map zone_stock_of (filter (fun r => warehouse_of r =? k) done)
        /\ group_zones g <> [])
  /\ (forall r, In r done -> dict_contains (warehouse_of r) d = true).

(** The quantity a request of the order view asks for: [quantity] when the
    body carries one, else 1. *)
Definition requested_quantity (quantity : option Z) : Z :=
  match quantity with
  | Some q => q
  | None => 1
  end.

(** The store after the upsert of [quantity] units of [product] at [price]
    into [order]. *)
Definition upserted (order : SupplierOrder) (product : Product) (quantity : Z)
                    (price : option Z) (st : Store) : Store :=
  match first (SupplierOrderItem_filter st order product) with
  | Some existing_item =>
      SupplierOrderItem_save
        {| SupplierOrderItem_id := SupplierOrderItem_id existing_item;
           SupplierOrderItem_order := SupplierOrderItem_order existing_item;
           SupplierOrderItem_product := SupplierOrderItem_product existing_item;
           SupplierOrderItem_quantity := SupplierOrderItem_quantity existing_item + quantity;
           unit_price := price |}
        st
  | None => snd (SupplierOrderItem_create order product quantity price st)
  end.

(** * Properties *)

Section Lists.

Context {A K : Type} (key : A -> K).

Lemma distinct_NoDup (eqb : K -> K -> bool) (l : list K) :
  (forall a b, eqb a b = true <-> a = b) ->
  distinct eqb l = true -> NoDup l.
Proof.
  intros Heqb. induction l as [|k r IH]; simpl; intros H.
  - constructor.
  - apply andb_true_iff in H. destruct H as [Hk Hr].
    constructor; [|now apply IH].
    intros Hin. apply negb_true_iff in Hk.
    assert (existsb (eqb k) r = true) as E.
    { apply existsb_exists. exists k. split; [assumption|]. now apply Heqb. }
    congruence.
Qed.

Lemma NoDup_key_inj (l : list A) (x y : A) :
  NoDup (map key l) -> In x l -> In y l -> key x = key y -> x = y.
Proof.
  induction l as [|a l IH]; simpl; [tauto|].
  intros Hnd Hx Hy Hk. inversion Hnd as [|? ? Hnotin Hnd']; subst.
  destruct Hx as [->|Hx], Hy as [->|Hy]; auto.
  - exfalso. apply Hnotin. rewrite Hk. now apply in_map.
  - exfalso. apply Hnotin. rewrite <- Hk. now apply in_map.
Qed.

Lemma filter_none (f : A -> bool) (l : list A) :
  (forall r, In r l -> f r = false) -> filter f l = [].
Proof.
  induction l as [|a l IH]; simpl; intros H; [reflexivity|].
  rewrite (H a) by now left. apply IH. intros r Hr. apply H. now right.
Qed.

(** A lookup that fixes the key selects at most one row. *)
Lemma filter_singleton (f : A -> bool) (k : K) (l : list A) (x : A) :
  NoDup (map key l) ->
  (forall r, In r l -> f r = true -> key r = k) ->
  In x l -> f x = true -> filter f l = [x].
Proof.
  induction l as [|a l IH]; simpl; [tauto|].
  intros Hnd Hk Hx Hfx. inversion Hnd as [|? ? Hnotin Hnd']; subst.
  assert (key x = k) as Kx by (apply Hk; [exact Hx|exact Hfx]).
  destruct (f a) eqn:Fa.
  - assert (key a = k) as Ka by (apply Hk; [now left|exact Fa]).
    assert (a = x) as ->.
    { destruct Hx as [Hx|Hx]; [exact Hx|].
      exfalso. apply Hnotin. rewrite Ka, <- Kx. now apply in_map. }
    f_equal. apply filter_none. intros r Hr.
    destruct (f r) eqn:Fr; [|reflexivity].
    exfalso. apply Hnotin. rewrite Kx.
    rewrite <- (Hk r (or_intror Hr) Fr). now apply in_map.
  - destruct Hx as [->|Hx]; [congruence|].
    apply IH; auto.
Qed.

Lemma filter_nil_or_singleton (f : A -> bool) (k : K) (l : list A) :
  NoDup (map key l) ->
  (forall r, In r l -> f r = true -> key r = k) ->
  filter f l = [] \/ exists x, In x l /\ f x = true /\ filter f l = [x].
Proof.
  intros Hnd Hk. destruct (filter f l) as [|x rest] eqn:E; [now left|right].
  assert (In x (filter f l)) as Hx by (rewrite E; now left).
  apply filter_In in Hx. destruct Hx as [Hx Fx].
  exists x. repeat split; auto.
  rewrite <- E. eapply filter_singleton; eauto.
Qed.

End Lists.

Arguments NoDup_key_inj {A K} key l x y.
Arguments filter_singleton {A K} key f k l x.
Arguments filter_nil_or_singleton {A K} key f k l.

Lemma key_eqb_eq (a b : Z * Z) : key_eqb a b = true <-> a = b.
Proof.
  destruct a as [a1 a2], b as [b1 b2]. unfold key_eqb. simpl.
  rewrite andb_true_iff, !Z.eqb_eq. split.
  - intros [-> ->]. reflexivity.
  - intros E. inversion E. auto.
Qed.

Lemma Store_ok_products (st : Store) :
  Store_ok st = true -> NoDup (map Product_id (products st)).
Proof.
  unfold Store_ok. rewrite !andb_true_iff. intros [[H _] _].
  eapply distinct_NoDup; [apply Z.eqb_eq|exact H].
Qed.

Lemma Store_ok_inventory_ids (st : Store) :
  Store_ok st = true -> NoDup (map Inventory_id (inventory st)).
Proof.
  unfold Store_ok. rewrite !andb_true_iff. intros [[_ H] _].
  eapply distinct_NoDup; [apply Z.eqb_eq|exact H].
Qed.

Lemma Store_ok_inventory_keys (st : Store) :
  Store_ok st = true -> NoDup (map inventory_key (inventory st)).
Proof.
  unfold Store_ok. rewrite !andb_true_iff. intros [_ H].
  eapply distinct_NoDup; [apply key_eqb_eq|exact H].
Qed.

(** ** The ORM lookups on a store that satisfies the constraints *)

Lemma pk_is_Some (v : option Z) (pk : Z) : pk_is v pk = true <-> v = Some pk.
Proof.
  destruct v as [v|]; simpl; [|split; discriminate].
  rewrite Z.eqb_eq. split; [now intros ->|now intros [=]].
Qed.

Lemma Product_get_found (st : Store) (p : Product) :
  NoDup (map Product_id (products st)) ->
  In p (products st) ->
  Product_get st (Some (Product_id p)) = Ok p.
Proof.
  intros Hnd Hp. unfold Product_get.
  rewrite (filter_singleton Product_id _ (Product_id p) (products st) p); auto.
  - intros r _ Hr. apply pk_is_Some in Hr. now inversion Hr.
  - now apply pk_is_Some.
Qed.

Lemma Product_get_active_found (st : Store) (p : Product) :
  NoDup (map Product_id (products st)) ->
  In p (products st) -> Product_is_active p = true ->
  Product_get_active st (Some (Product_id p)) = Ok p.
Proof.
  intros Hnd Hp Ha. unfold Product_get_active.
  rewrite (filter_singleton Product_id _ (Product_id p) (products st) p); auto.
  - intros r _ Hr. apply andb_true_iff in Hr. destruct Hr as [Hr _].
    apply pk_is_Some in Hr. now inversion Hr.
  - rewrite Ha, andb_true_r. now apply pk_is_Some.
Qed.

Lemma inventory_of_key (p : Product) (z : Zone) (r : Inventory) :
  inventory_of p z r = true <-> inventory_key r = (Product_id p, Zone_id z).
Proof.
  unfold inventory_of, inventory_key. rewrite andb_true_iff, !Z.eqb_eq. split.
  - intros [-> ->]. reflexivity.
  - intros [= -> ->]. auto.
Qed.

Lemma Inventory_get_found (st : Store) (p : Product) (z : Zone) (inv : Inventory) :
  NoDup (map inventory_key (inventory st)) ->
  In inv (inventory st) -> inventory_of p z inv = true ->
  Inventory_get st p z = Ok inv.
Proof.
  intros Hnd Hin Hof. unfold Inventory_get.
  rewrite (filter_singleton inventory_key _ (Product_id p, Zone_id z)
             (inventory st) inv); auto.
  intros r _ Hr. now apply inventory_of_key.
Qed.

(** ** The commit pass *)

Lemma take_stock_ids (p : Product) (z : Zone) (q : Z) (rows : list Inventory) :
  map Inventory_id (take_stock p z q rows) = map Inventory_id rows.
Proof.
  unfold take_stock. rewrite map_map. apply map_ext.
  intros r. now destruct (inventory_of p z r).
Qed.

Lemma take_stock_keys (p : Product) (z : Zone) (q : Z) (rows : list Inventory) :
  map inventory_key (take_stock p z q rows) = map inventory_key rows.
Proof.
  unfold take_stock. rewrite map_map. apply map_ext.
  intros r. now destruct (inventory_of p z r).
Qed.

Lemma take_stock_In (p : Product) (z : Zone) (q : Z) (rows : list Inventory)
                    (p' : Product) (inv : Inventory) :
  In inv rows -> inventory_of p' z inv = true ->
  exists inv', In inv' (take_stock p z q rows) /\ inventory_of p' z inv' = true.
Proof.
  intros Hin Hof.
  exists (if inventory_of p z inv
          then with_quantity (Inventory_quantity inv - q) inv else inv).
  split.
  - unfold take_stock.
    apply (in_map (fun r => if inventory_of p z r
                            then with_quantity (Inventory_quantity r - q) r else r)).
    exact Hin.
  - now destruct (inventory_of p z inv).
Qed.

(** Saving the row that [get] returned is taking the stock from the row
    of the pair. *)
Lemma save_is_take_stock (st : Store) (p : Product) (z : Zone) (inv : Inventory) (q : Z) :
  NoDup (map Inventory_id (inventory st)) ->
  NoDup (map inventory_key (inventory st)) ->
  In inv (inventory st) -> inventory_of p z inv = true ->
  inventory (Inventory_save (with_quantity (Inventory_quantity inv - q) inv) st)
  = take_stock p z q (inventory st).
Proof.
  intros Hids Hkeys Hin Hof. unfold Inventory_save, take_stock. simpl.
  apply map_ext_in. intros r Hr.
  destruct (Inventory_id r =? Inventory_id inv) eqn:E.
  - apply Z.eqb_eq in E.
    assert (r = inv) as -> by (eapply (NoDup_key_inj Inventory_id); eauto).
    now rewrite Hof.
  - destruct (inventory_of p z r) eqn:F; [|reflexivity].
    assert (r = inv) as ->.
    { eapply (NoDup_key_inj inventory_key); eauto.
      apply inventory_of_key in F, Hof. congruence. }
    rewrite Z.eqb_refl in E. discriminate.
Qed.

Lemma sell_item_ok (sale : Sale) (z : Zone) (item : CartItem) (total : Z) (st : Store)
                   (p : Product) (inv : Inventory) :
  NoDup (map Product_id (products st)) ->
  NoDup (map Inventory_id (inventory st)) ->
  NoDup (map inventory_key (inventory st)) ->
  In p (products st) -> cart_id item = Some (Product_id p) ->
  In inv (inventory st) -> inventory_of p z inv = true ->
  sell_item sale z item total st
  = Ok (total + or_zero (precio_venta p) * get_quantity item,
        set_inventory (take_stock p z (get_quantity item) (inventory st))
          (set_sale_items
             (append (sale_items st)
                {| SaleItem_sale := Sale_id sale;
                   SaleItem_product := Product_id p;
                   SaleItem_quantity := get_quantity item;
                   price_at_sale := or_zero (precio_venta p) |})
             st)).
Proof.
  intros Hp Hids Hkeys Hin Hid Hinv Hof. unfold sell_item.
  rewrite Hid, (Product_get_found st p Hp Hin). simpl.
  rewrite (Inventory_get_found st p z inv Hkeys Hinv Hof). simpl.
  do 2 f_equal.
  unfold Inventory_save at 1. unfold set_inventory. simpl.
  f_equal.
  exact (save_is_take_stock st p z inv (get_quantity item) Hids Hkeys Hinv Hof).
Qed.

Lemma with_quantity_same (r : Inventory) :
  with_quantity (Inventory_quantity r) r = r.
Proof. now destruct r. Qed.

Lemma stock_after_nil (z : Zone) (rows : list Inventory) :
  stock_after z [] rows = rows.
Proof.
  unfold stock_after. simpl. rewrite <- (map_id rows) at 2. apply map_ext.
  intros r. destruct (Inventory_zone r =? Zone_id z); [|reflexivity].
  rewrite Z.sub_0_r. apply with_quantity_same.
Qed.

Lemma stock_after_cons (z : Zone) (item : CartItem) (rest : list CartItem)
                       (p : Product) (rows : list Inventory) :
  cart_id item = Some (Product_id p) ->
  stock_after z rest (take_stock p z (get_quantity item) rows)
  = stock_after z (item :: rest) rows.
Proof.
  intros Hid. unfold stock_after, take_stock. rewrite map_map. apply map_ext.
  intros r. simpl. rewrite Hid. simpl. unfold inventory_of.
  rewrite (Z.eqb_sym (Product_id p) (Inventory_product r)).
  destruct (Inventory_product r =? Product_id p) eqn:Ep;
    destruct (Inventory_zone r =? Zone_id z) eqn:Ez; simpl; rewrite ?Ez; try reflexivity.
  unfold with_quantity. simpl. f_equal. lia.
Qed.

Lemma sell_cart_ok (sale : Sale) (z : Zone) (cart : list CartItem) :
  forall (total : Z) (st : Store),
  NoDup (map Product_id (products st)) ->
  NoDup (map Inventory_id (inventory st)) ->
  NoDup (map inventory_key (inventory st)) ->
  (forall item, In item cart ->
     exists p inv, In p (products st) /\ cart_id item = Some (Product_id p)
                   /\ In inv (inventory st) /\ inventory_of p z inv = true) ->
  exists items,
    sell_cart sale z cart total st
    = Ok (total + amount items,
          set_inventory (stock_after z cart (inventory st))
            (set_sale_items (sale_items st ++ items)%list st))
    /\ Forall2 (sale_item_of (products st) (Sale_id sale)) cart items.
Proof.
  induction cart as [|item rest IH]; intros total st Hp Hids Hkeys Hall.
  - exists []. split; [|constructor]. simpl.
    rewrite stock_after_nil, app_nil_r, Z.add_0_r.
    destruct st; reflexivity.
  - destruct (Hall item (or_introl eq_refl)) as [p [inv [Hin [Hid [Hinv Hof]]]]].
    simpl. rewrite (sell_item_ok sale z item total st p inv Hp Hids Hkeys Hin Hid Hinv Hof).
    simpl.
    set (si := {| SaleItem_sale := Sale_id sale;
                  SaleItem_product := Product_id p;
                  SaleItem_quantity := get_quantity item;
                  price_at_sale := or_zero (precio_venta p) |}).
    set (st1 := set_inventory _ _).
    destruct (IH (total + or_zero (precio_venta p) * get_quantity item) st1)
      as [items [E F]].
    + exact Hp.
    + subst st1. simpl. now rewrite take_stock_ids.
    + subst st1. simpl. now rewrite take_stock_keys.
    + intros it Hit.
      destruct (Hall it (or_intror Hit)) as [p' [inv' [Hin' [Hid' [Hinv' Hof']]]]].
      destruct (take_stock_In p z (get_quantity item) (inventory st) p' inv' Hinv' Hof')
        as [inv'' [Hin'' Hof'']].
      exists p', inv''. auto.
    + exists (si :: items). split.
      * rewrite E. subst st1. simpl.
        rewrite (stock_after_cons z item rest p (inventory st) Hid).
        unfold append. rewrite <- app_assoc. simpl.
        f_equal. f_equal. subst si; simpl; lia.
      * constructor; [|exact F]. exists p. auto.
Qed.

(** ** The validation pass *)

Lemma validate_item_pass (st : Store) (z : Zone) (item : CartItem)
                         (p : Product) (inv : Inventory) (errors : list string) :
  NoDup (map Product_id (products st)) ->
  NoDup (map inventory_key (inventory st)) ->
  line_in_stock st z item p inv ->
  get_quantity item <= Inventory_quantity inv ->
  validate_item st z item errors = Ok errors.
Proof.
  intros Hp Hkeys [Hin [Hid [Hact [Hinv Hof]]]] Hq. unfold validate_item.
  rewrite Hid, (Product_get_active_found st p Hp Hin Hact).
  rewrite (Inventory_get_found st p z inv Hkeys Hinv Hof).
  destruct (Inventory_quantity inv <? get_quantity item) eqn:E; [|reflexivity].
  apply Z.ltb_lt in E. lia.
Qed.

Lemma validate_cart_pass (st : Store) (z : Zone) (cart : list CartItem) :
  NoDup (map Product_id (products st)) ->
  NoDup (map inventory_key (inventory st)) ->
  (forall item, In item cart ->
     exists p inv, line_in_stock st z item p inv
                   /\ get_quantity item <= Inventory_quantity inv) ->
  forall errors, validate_cart st z cart errors = Ok errors.
Proof.
  intros Hp Hkeys. induction cart as [|item rest IH]; intros Hall errors.
  - reflexivity.
  - destruct (Hall item (or_introl eq_refl)) as [p [inv [Hl Hq]]].
    simpl. rewrite (validate_item_pass st z item p inv errors Hp Hkeys Hl Hq).
    simpl. apply IH. intros it Hit. apply Hall. now right.
Qed.

(** ** The sale record *)

Lemma next_pk_fresh (pks : list Z) (x : Z) : In x pks -> x < next_pk pks.
Proof.
  unfold next_pk. induction pks as [|a l IH]; cbn [fold_right In]; [tauto|].
  intros [->|H]; [lia|]. specialize (IH H). lia.
Qed.

Lemma save_created_sale (rows : list Sale) (s s' : Sale) :
  Sale_id s = next_pk (map Sale_id rows) -> Sale_id s' = Sale_id s ->
  map (fun r => if Sale_id r =? Sale_id s' then s' else r) (append rows s)
  = (rows ++ [s'])%list.
Proof.
  intros Hs Hs'. unfold append. rewrite map_app. simpl.
  rewrite Hs', Z.eqb_refl. f_equal.
  rewrite <- (map_id rows) at 2. apply map_ext_in. intros r Hr.
  assert (Sale_id r < next_pk (map Sale_id rows)) as Hlt
    by (apply next_pk_fresh; now apply in_map).
  destruct (Sale_id r =? Sale_id s) eqn:E; [|reflexivity].
  apply Z.eqb_eq in E. lia.
Qed.

Lemma names_client_exists (st : Store) (client_id : option Z) :
  names_client st client_id
  <-> client_exists st (client_or_None client_id) = true.
Proof.
  unfold names_client, client_exists, client_or_None.
  destruct client_id as [c|]; [|split; [reflexivity|intros _ c [=]]].
  destruct (c =? 0) eqn:E0.
  - apply Z.eqb_eq in E0. split; [reflexivity|]. intros _ c' [= <-] H. congruence.
  - apply Z.eqb_neq in E0. rewrite existsb_exists. split.
    + intros H. destruct (H c eq_refl E0) as [client [Hin Hid]].
      exists client. split; [exact Hin|now apply Z.eqb_eq].
    + intros [client [Hin Hid]] c' [= <-] _. apply Z.eqb_eq in Hid. eauto.
Qed.

(** The sale that a checkout of [cart] by [user] records on [st]. *)
Lemma process_sale_success (user : Z) (client_id : option Z) (cart : list CartItem)
                           (st : Store) (z : Zone) :
  Store_ok st = true ->
  names_client st client_id ->
  cart <> [] ->
  get_sales_zone st = Some z ->
  (forall item, In item cart ->
     exists p inv, line_in_stock st z item p inv
                   /\ get_quantity item <= Inventory_quantity inv) ->
  exists items,
    process_sale user (Json client_id cart) st
    = (Success (next_pk (map Sale_id (sales st))) (amount items),
       set_sales
         (sales st ++ [{| Sale_id := next_pk (map Sale_id (sales st));
                          Sale_client_id := client_or_None client_id;
                          Sale_user := user;
                          total_amount := amount items |}])%list
         (set_inventory (stock_after z cart (inventory st))
            (set_sale_items (sale_items st ++ items)%list st)))
    /\ Forall2 (sale_item_of (products st) (next_pk (map Sale_id (sales st))))
               cart items.
Proof.
  intros Hok Hclient Hne Hz Hall.
  pose proof (Store_ok_products st Hok) as Hp.
  pose proof (Store_ok_inventory_ids st Hok) as Hids.
  pose proof (Store_ok_inventory_keys st Hok) as Hkeys.
  apply names_client_exists in Hclient.
  destruct cart as [|item rest]; [congruence|].
  unfold process_sale. rewrite Hz.
  rewrite (validate_cart_pass st z (item :: rest) Hp Hkeys Hall []).
  unfold atomic, commit_sale, Sale_create. rewrite Hclient. cbn [bind].
  set (sale0 := {| Sale_id := next_pk (map Sale_id (sales st));
                   Sale_client_id := client_or_None client_id;
                   Sale_user := user; total_amount := 0 |}).
  set (st1 := set_sales (append (sales st) sale0) st).
  destruct (sell_cart_ok sale0 z (item :: rest) 0 st1) as [items [E F]]; auto.
  - intros it Hit. destruct (Hall it Hit) as [p [inv [[H1 [H2 [_ [H4 H5]]]] _]]].
    exists p, inv. auto.
  - exists items. split; [|exact F].
    rewrite E. cbn [bind]. rewrite Z.add_0_l. cbn [Sale_id with_total_amount total_amount].
    f_equal. unfold Sale_save, set_sales, set_inventory, set_sale_items. subst st1.
    cbn [sales set_sales set_inventory set_sale_items warehouses zones products
         inventory sale_items supplier_orders order_items product_suppliers
         clients].
    f_equal. apply save_created_sale; reflexivity.
Qed.

Lemma find_first {A} (f : A -> bool) (l : list A) :
  find f l = first (filter f l).
Proof.
  induction l as [|a l IH]; simpl; [reflexivity|].
  now destruct (f a).
Qed.

Lemma active_rows_cases (st : Store) (id : option Z) :
  NoDup (map Product_id (products st)) ->
  let rows := filter (fun p => pk_is id (Product_id p) && Product_is_active p)
                     (products st) in
  rows = [] \/ exists p, rows = [p].
Proof.
  intros Hp rows. subst rows.
  destruct (filter_nil_or_singleton Product_id
              (fun p => pk_is id (Product_id p) && Product_is_active p)
              (match id with Some v => v | None => 0 end) (products st) Hp)
    as [E|[x [_ [_ E]]]]; eauto.
  intros r _ Hr. apply andb_true_iff in Hr. destruct Hr as [Hr _].
  apply pk_is_Some in Hr. now rewrite Hr.
Qed.

Lemma ledger_rows_cases (st : Store) (p : Product) (z : Zone) :
  NoDup (map inventory_key (inventory st)) ->
  filter (inventory_of p z) (inventory st) = []
  \/ exists inv, filter (inventory_of p z) (inventory st) = [inv].
Proof.
  intros Hkeys.
  destruct (filter_nil_or_singleton inventory_key (inventory_of p z)
              (Product_id p, Zone_id z) (inventory st) Hkeys)
    as [E|[x [_ [_ E]]]]; eauto.
  intros r _ Hr. now apply inventory_of_key.
Qed.

Lemma validate_item_status (st : Store) (z : Zone) (item : CartItem)
                           (errors : list string) :
  NoDup (map Product_id (products st)) ->
  NoDup (map inventory_key (inventory st)) ->
  validate_item st z item errors
  = Ok (errors ++ line_error item (line_status st z item))%list.
Proof.
  intros Hp Hkeys.
  unfold validate_item, line_status, Product_get_active, Inventory_get.
  rewrite find_first.
  destruct (active_rows_cases st (cart_id item) Hp) as [E|[p E]];
    rewrite E; simpl; [reflexivity|].
  rewrite find_first.
  destruct (ledger_rows_cases st p z Hkeys) as [F|[inv F]];
    rewrite F; simpl; [reflexivity|].
  destruct (Inventory_quantity inv <? get_quantity item); simpl;
    [reflexivity|now rewrite app_nil_r].
Qed.

Lemma validate_cart_status (st : Store) (z : Zone) (cart : list CartItem) :
  NoDup (map Product_id (products st)) ->
  NoDup (map inventory_key (inventory st)) ->
  forall errors,
    validate_cart st z cart errors = Ok (errors ++ line_errors st z cart)%list.
Proof.
  intros Hp Hkeys. induction cart as [|item rest IH]; intros errors; simpl.
  - now rewrite app_nil_r.
  - rewrite (validate_item_status st z item errors Hp Hkeys). simpl.
    rewrite IH. now rewrite <- app_assoc.
Qed.

Lemma line_error_fails (st : Store) (z : Zone) (item : CartItem) :
  List.length (line_error item (line_status st z item))
  = if fails st z item then 1%nat else 0%nat.
Proof.
  unfold fails. now destruct (line_status st z item).
Qed.

Lemma line_errors_length (st : Store) (z : Zone) (cart : list CartItem) :
  List.length (line_errors st z cart) = List.length (filter (fails st z) cart).
Proof.
  induction cart as [|item rest IH]; simpl; [reflexivity|].
  unfold line_errors in *. rewrite length_app, IH, line_error_fails.
  now destruct (fails st z item).
Qed.

(** ** The ledger after a checkout *)

Lemma stock_after_keys (z : Zone) (cart : list CartItem) (rows : list Inventory) :
  map inventory_key (stock_after z cart rows) = map inventory_key rows.
Proof.
  unfold stock_after. rewrite map_map. apply map_ext.
  intros r. now destruct (Inventory_zone r =? Zone_id z).
Qed.


Lemma requested_absent (cart : list CartItem) (pid : Z) :
  (forall item, In item cart -> cart_id item <> Some pid) ->
  requested cart pid = 0.
Proof.
  induction cart as [|a rest IH]; simpl; intros H; [reflexivity|].
  destruct (pk_is (cart_id a) pid) eqn:E.
  - apply pk_is_Some in E. exfalso. apply (H a); auto.
  - apply IH. intros item Hitem. apply H. now right.
Qed.


(** * The sale processor *)






Example checkout_two_alfajores :
  fst (process_sale 1 (Json None [line 5 2]) shop) = Success 1 2000
  /\ sales (snd (process_sale 1 (Json None [line 5 2]) shop))
     = [{| Sale_id := 1; Sale_client_id := None; Sale_user := 1;
           total_amount := 2000 |}]
  /\ sale_items (snd (process_sale 1 (Json None [line 5 2]) shop))
     = [{| SaleItem_sale := 1; SaleItem_product := 5; SaleItem_quantity := 2;
           price_at_sale := 1000 |}]
  /\ inventory (snd (process_sale 1 (Json None [line 5 2]) shop))
     = [alfajor_en_zona_a; with_quantity 8 alfajor_en_ventas; galleta_en_ventas].
Proof. repeat split. Qed.


(** C3.  A request whose cart is empty is answered with the validation
    error of the empty cart (status 400), and the store is returned as it
    was: no sale, sale line or ledger row is created or modified. *)
Theorem empty_cart_rejected (user : Z) (client_id : option Z) (st : Store) :
  process_sale user (Json client_id []) st
  = (Error 400 "El carrito está vacío", st).
Proof. reflexivity. Qed.

(** A line fails exactly when it is not a line in stock: the premises of
    C1 and C2 are complementary. *)
Lemma fails_false_iff (st : Store) (z : Zone) (item : CartItem) :
  Store_ok st = true ->
  fails st z item = false
  <-> exists p inv, line_in_stock st z item p inv
                    /\ get_quantity item <= Inventory_quantity inv.
Proof.
  intros Hok.
  pose proof (Store_ok_products st Hok) as Hp.
  pose proof (Store_ok_inventory_keys st Hok) as Hkeys.
  split.
  - unfold fails, line_status.
    destruct (find _ (products st)) as [p|] eqn:Fp; [|discriminate].
    destruct (find _ (inventory st)) as [inv|] eqn:Fi; [|discriminate].
    destruct (Inventory_quantity inv <? get_quantity item) eqn:Q; [discriminate|].
    intros _. apply find_some in Fp, Fi.
    destruct Fp as [Hin Hf], Fi as [Hinv Hof].
    apply andb_true_iff in Hf. destruct Hf as [Hid Hact].
    apply pk_is_Some in Hid. apply Z.ltb_ge in Q.
    exists p, inv. unfold line_in_stock. auto 10.
  - intros [p [inv [Hl Hq]]].
    pose proof (validate_item_pass st z item p inv [] Hp Hkeys Hl Hq) as E.
    rewrite (validate_item_status st z item [] Hp Hkeys) in E.
    simpl in E. unfold fails.
    destruct (line_status st z item); simpl in E; try discriminate.
    reflexivity.
Qed.

(** C2.  When the sales zone resolves and some line of the cart names a
    product that is missing or inactive, or that has no row in the sales
    zone, or requests more than the row holds, [process_sale] answers with
    status 400 and the messages of all the failing lines, one per failing
    line in the order of the cart, joined by a line break; the store is
    returned as it was. *)
Theorem checkout_rejected (user : Z) (client_id : option Z) (cart : list CartItem)
                          (st : Store) (z : Zone) :
  Store_ok st = true ->
  get_sales_zone st = Some z ->
  (exists item, In item cart /\ fails st z item = true) ->
  process_sale user (Json client_id cart) st
  = (Error 400 (Str.join "<br>" (line_errors st z cart)), st)
  /\ List.length (line_errors st z cart) = List.length (filter (fails st z) cart)
  /\ (0 < List.length (line_errors st z cart))%nat.
Proof.
  intros Hok Hz [item [Hin Hfails]].
  pose proof (Store_ok_products st Hok) as Hp.
  pose proof (Store_ok_inventory_keys st Hok) as Hkeys.
  assert (0 < List.length (line_errors st z cart))%nat as Hpos.
  { rewrite line_errors_length.
    assert (In item (filter (fails st z) cart)) as Hf by (apply filter_In; auto).
    destruct (filter (fails st z) cart); [destruct Hf|simpl; lia]. }
  split; [|split; [apply line_errors_length|exact Hpos]].
  unfold process_sale. destruct cart as [|i r]; [destruct Hin|].
  rewrite Hz, (validate_cart_status st z (i :: r) Hp Hkeys []).
  cbn [app].
  destruct (line_errors st z (i :: r)); [simpl in Hpos; lia|reflexivity].
Qed.

(** The second example of the specification (twenty units out of a stock
    of ten), in a cart that has two more failing lines and a passing one. *)
Lemma checkout_rejected_witness :
  process_sale 1 (Json None [line 5 20; line 5 1; line 6 1; line 7 1]) shop
  = (Error 400
       (Str.join "<br>"
          (line_errors shop ventas [line 5 20; line 5 1; line 6 1; line 7 1])),
     shop)
  /\ List.length (line_errors shop ventas [line 5 20; line 5 1; line 6 1; line 7 1])
     = List.length (filter (fails shop ventas) [line 5 20; line 5 1; line 6 1; line 7 1])
  /\ (0 < List.length
            (line_errors shop ventas [line 5 20; line 5 1; line 6 1; line 7 1]))%nat.
Proof.
  apply (checkout_rejected 1 None [line 5 20; line 5 1; line 6 1; line 7 1]
           shop ventas eq_refl eq_refl).
  exists (line 5 20). split; [now left|reflexivity].
Defined.

Example checkout_twenty_alfajores :
  process_sale 1 (Json None [line 5 20]) shop
  = (Error 400 "Stock insuficiente para Alfajor. Disponible: 10, Solicitado: 20",
     shop).
Proof. reflexivity. Qed.

Example checkout_three_failures :
  process_sale 1 (Json None [line 5 20; line 5 1; line 6 1; line 7 1]) shop
  = (Error 400
       ("Stock insuficiente para Alfajor. Disponible: 10, Solicitado: 20<br>"
        ++ "Producto con ID 6 no encontrado<br>"
        ++ "No hay stock de Yerba en la zona de ventas"),
     shop).
Proof. reflexivity. Qed.







Example checkout_negative_quantity :
  fst (process_sale 1 (Json None [line 5 (-3)]) shop) = Success 1 (-3000)
  /\ inventory (snd (process_sale 1 (Json None [line 5 (-3)]) shop))
     = [alfajor_en_zona_a; with_quantity 13 alfajor_en_ventas; galleta_en_ventas]
  /\ fst (process_sale 1
            (Json None [{| cart_id := Some 5; cart_quantity := None |}]) shop)
     = Success 1 0.
Proof. repeat split. Qed.

(** ** The sales zone *)

Lemma first_such_filter {A} (P : A -> bool) (l : list A) (x : A) :
  first_such P l x -> first (filter P l) = Some x.
Proof.
  intros [before [after [-> [Px Hbefore]]]].
  rewrite filter_app, (filter_none P before Hbefore). simpl. now rewrite Px.
Qed.

Lemma first_such_exists {A} (P : A -> bool) (l : list A) :
  (exists x, In x l /\ P x = true) -> exists x, first_such P l x.
Proof.
  induction l as [|a l IH]; intros [x [Hin Px]]; [destruct Hin|].
  destruct (P a) eqn:Pa.
  - exists a, [], l. simpl. repeat split; auto. intros y [].
  - destruct IH as [y [before [after [-> [Py Hb]]]]].
    + destruct Hin as [->|Hin]; [congruence|eauto].
    + exists y, (a :: before), after. simpl. repeat split; auto.
      intros z [<-|Hz]; auto.
Qed.

(** C8.  [get_sales_zone] answers with the first active zone whose name
    contains "venta" in any case; when no zone is such, with the first
    active zone; and when no zone is active, with nothing, in which case
    [process_sale] changes nothing for any request and answers a request
    that carries a cart with status 500. *)
Theorem sales_zone_resolution (st : Store) :
  (forall z, first_such named_for_sales (zones st) z -> get_sales_zone st = Some z)
  /\ ((forall z, In z (zones st) -> named_for_sales z = false) ->
      forall z, first_such Zone_is_active (zones st) z ->
                get_sales_zone st = Some z)
  /\ ((forall z, In z (zones st) -> Zone_is_active z = false) ->
      get_sales_zone st = None
      /\ (forall user body,
            snd (process_sale user body st) = st
            /\ exists code errors,
                 fst (process_sale user body st) = Error code errors)
      /\ (forall user client_id item rest,
            process_sale user (Json client_id (item :: rest)) st
            = (Error 500 "Zona de ventas no configurada", st))).
Proof.
  unfold get_sales_zone. fold named_for_sales.
  change (fun z => Str.icontains (Zone_name z) "venta" && Zone_is_active z)
    with named_for_sales.
  split; [|split].
  - intros z Hz. now rewrite (first_such_filter _ _ _ Hz).
  - intros Hnone z Hz.
    rewrite (filter_none named_for_sales (zones st) Hnone). simpl.
    now apply first_such_filter.
  - intros Hnone.
    assert (get_sales_zone st = None) as E.
    { unfold get_sales_zone.
      rewrite (filter_none Zone_is_active (zones st) Hnone).
      rewrite filter_none; [reflexivity|].
      intros z Hz. now rewrite (Hnone z Hz), andb_false_r. }
    split; [exact E|]. split.
    + intros user [|client_id [|item rest]]; simpl; eauto.
      unfold process_sale. rewrite E. simpl. eauto.
    + intros user client_id item rest. unfold process_sale. now rewrite E.
Qed.

Example sales_zone_of_shop : get_sales_zone shop = Some ventas.
Proof. reflexivity. Qed.

Example sales_zone_fallback : get_sales_zone shop_with_plain_zones = Some zona_a.
Proof. reflexivity. Qed.

Example sales_zone_missing :
  get_sales_zone shop_without_zones = None
  /\ process_sale 1 (Json None [line 5 2]) shop_without_zones
     = (Error 500 "Zona de ventas no configurada", shop_without_zones).
Proof. split; reflexivity. Qed.

(** As soon as one zone is active a sales zone is found, and it is active. *)
Lemma sales_zone_found (st : Store) :
  (exists z, In z (zones st) /\ Zone_is_active z = true) ->
  exists z, get_sales_zone st = Some z /\ In z (zones st) /\ Zone_is_active z = true.
Proof.
  intros Hactive. unfold get_sales_zone.
  destruct (first (filter _ (zones st))) as [z|] eqn:E.
  - exists z. split; [reflexivity|].
    destruct (filter _ (zones st)) as [|z' r] eqn:F; [discriminate|].
    injection E as ->.
    assert (In z (z :: r)) as Hin by now left.
    rewrite <- F in Hin. apply filter_In in Hin. destruct Hin as [Hin Hf].
    apply andb_true_iff in Hf. tauto.
  - destruct (first_such_exists Zone_is_active (zones st) Hactive) as [z Hz].
    exists z. split; [now apply first_such_filter|].
    destruct Hz as [before [after [-> [Hz _]]]].
    split; [|exact Hz]. apply in_or_app. right. now left.
Qed.

(** * The supplier order upsert *)

(** C7.  For an order whose status is not PENDING, [add_product_to_order]
    fails for every caller and every body and returns the store as it was;
    for a caller who may modify orders the failure is the validation error
    of status 400. *)
Theorem order_not_pending (user : User) (order_pk : Z) (body : OrderBody)
                          (st : Store) (order : SupplierOrder) :
  SupplierOrder_get st order_pk = Ok order ->
  SupplierOrder_status order <> "PENDING" ->
  snd (add_product_to_order user order_pk body st) = st
  /\ (exists code message,
        fst (add_product_to_order user order_pk body st) = OrderError code message)
  /\ (may_modify_orders user = true ->
      add_product_to_order user order_pk body st
      = (OrderError 400 "No se pueden modificar órdenes que no están pendientes",
         st)).
Proof.
  intros Hget Hstatus. unfold add_product_to_order. rewrite Hget.
  apply String.eqb_neq in Hstatus. rewrite Hstatus. simpl.
  destruct (may_modify_orders user); simpl; eauto.
  repeat split; eauto. discriminate.
Qed.

Lemma order_not_pending_witness :
  add_product_to_order bodeguero 2 (OrderJson (Some 5) (Some 3)) shop
  = (OrderError 400 "No se pueden modificar órdenes que no están pendientes", shop).
Proof.
  apply (order_not_pending bodeguero 2 (OrderJson (Some 5) (Some 3)) shop
           received_order eq_refl).
  - discriminate.
  - reflexivity.
Defined.

(** A cashier is turned away before the order is looked at. *)
Example order_not_pending_for_cashier :
  add_product_to_order cajero 2 (OrderJson (Some 5) (Some 3)) shop
  = (OrderError 403 "No tienes permisos", shop).
Proof. reflexivity. Qed.

Lemma queryset_get_Ok {A} (m : Model) (rows : list A) (x : A) :
  queryset_get m rows = Ok x -> rows = [x].
Proof.
  destruct rows as [|a [|b r]]; simpl; try discriminate. now intros [= ->].
Qed.

Lemma Product_get_active_id (st : Store) (id : option Z) (p : Product) :
  Product_get_active st id = Ok p -> id = Some (Product_id p).
Proof.
  intros H. apply queryset_get_Ok in H.
  assert (In p (filter (fun p0 => pk_is id (Product_id p0) && Product_is_active p0)
                       (products st))) as Hin by (rewrite H; now left).
  apply filter_In in Hin. destruct Hin as [_ Hf].
  apply andb_true_iff in Hf. destruct Hf as [Hf _]. now apply pk_is_Some.
Qed.

(** The store after a call that passes every check: the response does not
    matter, the line is written before the response is built. *)
Lemma add_product_store (user : User) (order_pk : Z) (id : option Z) (q : Z)
                        (st : Store) (order : SupplierOrder) (p : Product)
                        (ps : ProductSupplier) :
  may_modify_orders user = true ->
  SupplierOrder_get st order_pk = Ok order ->
  SupplierOrder_status order = "PENDING" ->
  0 < q ->
  Product_get_active st id = Ok p ->
  first (ProductSupplier_filter st p order) = Some ps ->
  snd (add_product_to_order user order_pk (OrderJson id (Some q)) st)
  = match first (SupplierOrderItem_filter st order p) with
    | Some existing_item =>
        SupplierOrderItem_save
          {| SupplierOrderItem_id := SupplierOrderItem_id existing_item;
             SupplierOrderItem_order := SupplierOrderItem_order existing_item;
             SupplierOrderItem_product := SupplierOrderItem_product existing_item;
             SupplierOrderItem_quantity := SupplierOrderItem_quantity existing_item + q;
             unit_price := resolve_unit_price ps p |}
          st
    | None => snd (SupplierOrderItem_create order p q (resolve_unit_price ps p) st)
    end.
Proof.
  intros Hperm Hget Hstatus Hq Hprod Hps. unfold add_product_to_order.
  rewrite Hperm, Hget, Hstatus. simpl.
  assert ((q <=? 0) = false) as -> by (apply Z.leb_gt; exact Hq).
  rewrite Hprod, Hps.
  destruct (first (SupplierOrderItem_filter st order p)) as [existing|]; simpl.
  - match goal with |- context [all_items_data ?a ?b ?c] =>
      destruct (all_items_data a b c) as [[? ?]|?] end; simpl; [|reflexivity].
    match goal with |- context [item_data ?a ?b] =>
      destruct (item_data a b) end; reflexivity.
  - match goal with |- context [all_items_data ?a ?b ?c] =>
      destruct (all_items_data a b c) as [[? ?]|?] end; simpl; [|reflexivity].
    match goal with |- context [item_data ?a ?b] =>
      destruct (item_data a b) end; reflexivity.
Qed.

Lemma save_created_item (rows : list SupplierOrderItem) (it it' : SupplierOrderItem) :
  SupplierOrderItem_id it = next_pk (map SupplierOrderItem_id rows) ->
  SupplierOrderItem_id it' = SupplierOrderItem_id it ->
  map (fun r => if SupplierOrderItem_id r =? SupplierOrderItem_id it' then it' else r)
      (append rows it)
  = (rows ++ [it'])%list.
Proof.
  intros Hit Hit'. unfold append. rewrite map_app. simpl.
  rewrite Hit', Z.eqb_refl. f_equal.
  rewrite <- (map_id rows) at 2. apply map_ext_in. intros r Hr.
  assert (SupplierOrderItem_id r < next_pk (map SupplierOrderItem_id rows)) as Hlt
    by (apply next_pk_fresh; now apply in_map).
  destruct (SupplierOrderItem_id r =? SupplierOrderItem_id it) eqn:E; [|reflexivity].
  apply Z.eqb_eq in E. lia.
Qed.

Lemma item_of_same_product (order : SupplierOrder) (p p' : Product) :
  Product_id p = Product_id p' -> item_of order p = item_of order p'.
Proof. intros E. unfold item_of. now rewrite E. Qed.

Lemma filter_nil_all {A} (f : A -> bool) (l : list A) :
  filter f l = [] -> forall x, In x l -> f x = false.
Proof.
  intros E x Hin. destruct (f x) eqn:F; [|reflexivity].
  assert (In x (filter f l)) as H by (apply filter_In; auto).
  rewrite E in H. destruct H.
Qed.

Lemma item_of_key (order : SupplierOrder) (p : Product) (it : SupplierOrderItem) :
  item_of order p it = true <-> item_key it = (SupplierOrder_id order, Product_id p).
Proof.
  unfold item_of, item_key. rewrite andb_true_iff, !Z.eqb_eq. split.
  - intros [-> ->]. reflexivity.
  - intros [= -> ->]. auto.
Qed.

Lemma next_pk_not_in (pks : list Z) : ~ In (next_pk pks) pks.
Proof. intros H. apply next_pk_fresh in H. lia. Qed.

(** The upsert keeps the invariant of the lines, leaves every line of
    another (order, product) pair as it was, and leaves exactly one line
    for its own pair. *)
Lemma upserted_Items_ok (order : SupplierOrder) (p : Product) (q : Z)
                        (price : option Z) (st : Store) :
  Items_ok st ->
  Items_ok (upserted order p q price st)
  /\ (forall it, In it (order_items st) -> item_of order p it = false ->
                 In it (order_items (upserted order p q price st)))
  /\ (exists it, filter (item_of order p) (order_items (upserted order p q price st))
                 = [it]
                 /\ SupplierOrderItem_quantity it
                    = fold_right Z.add 0
                        (map SupplierOrderItem_quantity
                             (filter (item_of order p) (order_items st))) + q
                 /\ unit_price it = price).
Proof.
  intros [Hids Hkeys]. unfold upserted, SupplierOrderItem_filter.
  destruct (filter_nil_or_singleton item_key (item_of order p)
              (SupplierOrder_id order, Product_id p) (order_items st) Hkeys)
    as [E|[e [He [Fe E]]]].
  - intros r _ Hr. now apply item_of_key.
  - rewrite E. unfold Items_ok.
    cbn [first hd_error SupplierOrderItem_create snd set_order_items order_items].
    unfold append. split; [split|split].
    + rewrite map_app. apply NoDup_app; [exact Hids|repeat constructor; intros []|].
      intros k Hk [<-|[]]. exact (next_pk_not_in _ Hk).
    + rewrite map_app. apply NoDup_app; [exact Hkeys|repeat constructor; intros []|].
      intros k Hk [<-|[]]. apply in_map_iff in Hk. destruct Hk as [r [Hr Hin]].
      cbn [item_key SupplierOrderItem_order SupplierOrderItem_product] in Hr.
      apply item_of_key in Hr.
      now rewrite (filter_nil_all _ _ E r Hin) in Hr.
    + intros it Hin _. apply in_or_app. now left.
    + rewrite filter_app, E. cbn [app filter]. unfold item_of at 1.
      cbn [SupplierOrderItem_order SupplierOrderItem_product].
      rewrite !Z.eqb_refl. cbn [andb]. eexists. split; [reflexivity|].
      split; reflexivity.
  - rewrite E. cbn [first hd_error]. unfold SupplierOrderItem_save, Items_ok.
    cbn [set_order_items order_items SupplierOrderItem_id].
    set (e' := {| SupplierOrderItem_id := SupplierOrderItem_id e;
                  SupplierOrderItem_order := SupplierOrderItem_order e;
                  SupplierOrderItem_product := SupplierOrderItem_product e;
                  SupplierOrderItem_quantity := SupplierOrderItem_quantity e + q;
                  unit_price := price |}).
    assert (forall r, In r (order_items st) ->
                      (SupplierOrderItem_id r =? SupplierOrderItem_id e) = true ->
                      r = e) as Hsame.
    { intros r Hr Er. apply Z.eqb_eq in Er.
      exact (NoDup_key_inj SupplierOrderItem_id (order_items st) r e Hids Hr He Er). }
    assert (map SupplierOrderItem_id
                (map (fun r => if SupplierOrderItem_id r =? SupplierOrderItem_id e
                               then e' else r) (order_items st))
            = map SupplierOrderItem_id (order_items st)) as Eids.
    { rewrite map_map. apply map_ext. intros r.
      destruct (SupplierOrderItem_id r =? SupplierOrderItem_id e) eqn:Er;
        [|reflexivity].
      apply Z.eqb_eq in Er. now rewrite Er. }
    assert (map item_key
                (map (fun r => if SupplierOrderItem_id r =? SupplierOrderItem_id e
                               then e' else r) (order_items st))
            = map item_key (order_items st)) as Ekeys.
    { rewrite map_map. apply map_ext_in. intros r Hr.
      destruct (SupplierOrderItem_id r =? SupplierOrderItem_id e) eqn:Er;
        [|reflexivity].
      now rewrite (Hsame r Hr Er). }
    split; [split|split].
    + now rewrite Eids.
    + now rewrite Ekeys.
    + intros it Hin Hof. apply in_map_iff. exists it. split; [|exact Hin].
      destruct (SupplierOrderItem_id it =? SupplierOrderItem_id e) eqn:Er;
        [|reflexivity].
      rewrite (Hsame it Hin Er) in Hof. congruence.
    + exists e'. split; [|split; [subst e'; simpl; lia|reflexivity]].
      apply (filter_singleton item_key (item_of order p)
               (SupplierOrder_id order, Product_id p)).
      * now rewrite Ekeys.
      * intros r _ Hr. now apply item_of_key.
      * apply in_map_iff. exists e. split; [now rewrite Z.eqb_refl|exact He].
      * exact Fe.
Qed.

Lemma distinct_pairs_NoDup (l : list (Z * Z)) :
  distinct key_eqb l = true -> NoDup l.
Proof. apply distinct_NoDup. apply key_eqb_eq. Qed.

Example shop_with_line_Items_ok : Items_ok shop_with_line.
Proof.
  split.
  - apply (distinct_NoDup Z.eqb); [apply Z.eqb_eq|reflexivity].
  - apply distinct_pairs_NoDup. reflexivity.
Qed.

(** A successful call leaves the store of the upsert. *)
Lemma add_product_upserted (user : User) (order_pk : Z) (id : option Z) (q : Z)
                           (st : Store) (order : SupplierOrder) (p : Product)
                           (ps : ProductSupplier) :
  may_modify_orders user = true ->
  SupplierOrder_get st order_pk = Ok order ->
  SupplierOrder_status order = "PENDING" ->
  0 < q ->
  Product_get_active st id = Ok p ->
  first (ProductSupplier_filter st p order) = Some ps ->
  snd (add_product_to_order user order_pk (OrderJson id (Some q)) st)
  = upserted order p q (resolve_unit_price ps p) st.
Proof. exact (add_product_store user order_pk id q st order p ps). Qed.

(** An upsert into a pair that holds a line adds no row. *)
Lemma upserted_ids_existing (order : SupplierOrder) (p : Product) (q : Z)
                            (price : option Z) (st : Store) :
  SupplierOrderItem_filter st order p <> [] ->
  map SupplierOrderItem_id (order_items (upserted order p q price st))
  = map SupplierOrderItem_id (order_items st).
Proof.
  intros Hne. unfold upserted.
  destruct (SupplierOrderItem_filter st order p) as [|e l]; [congruence|].
  cbn [first hd_error]. unfold SupplierOrderItem_save.
  cbn [order_items set_order_items SupplierOrderItem_id].
  rewrite map_map. apply map_ext. intros r.
  destruct (SupplierOrderItem_id r =? SupplierOrderItem_id e) eqn:E; [|reflexivity].
  apply Z.eqb_eq in E. now rewrite E.
Qed.

(** Two upserts of the same product into an order that holds no line for
    it: one line is appended, with the two quantities and the second price. *)
Lemma upserted_twice_new (order : SupplierOrder) (p1 p2 : Product) (q1 q2 : Z)
                         (price1 price2 : option Z) (st0 st1 : Store) :
  Product_id p1 = Product_id p2 ->
  SupplierOrderItem_filter st0 order p1 = [] ->
  order_items st1 = order_items (upserted order p1 q1 price1 st0) ->
  exists item,
    SupplierOrderItem_filter (upserted order p2 q2 price2 st1) order p2 = [item]
    /\ SupplierOrderItem_quantity item = q1 + q2
    /\ unit_price item = price2
    /\ order_items (upserted order p2 q2 price2 st1) = (order_items st0 ++ [item])%list.
Proof.
  intros Hsame Hnone Hitems. unfold upserted in Hitems.
  rewrite Hnone in Hitems. simpl in Hitems.
  set (item1 := {| SupplierOrderItem_id := next_pk (map SupplierOrderItem_id (order_items st0));
                   SupplierOrderItem_order := SupplierOrder_id order;
                   SupplierOrderItem_product := Product_id p1;
                   SupplierOrderItem_quantity := q1;
                   unit_price := price1 |}) in *.
  assert (SupplierOrderItem_filter st1 order p2 = [item1]) as Hexisting.
  { unfold SupplierOrderItem_filter in *. rewrite Hitems. unfold append.
    rewrite filter_app, <- (item_of_same_product order p1 p2 Hsame), Hnone. simpl.
    unfold item_of at 1. subst item1. simpl. now rewrite !Z.eqb_refl. }
  unfold upserted. rewrite Hexisting. cbn [first hd_error].
  set (item2 := {| SupplierOrderItem_id := SupplierOrderItem_id item1;
                   SupplierOrderItem_order := SupplierOrderItem_order item1;
                   SupplierOrderItem_product := SupplierOrderItem_product item1;
                   SupplierOrderItem_quantity := SupplierOrderItem_quantity item1 + q2;
                   unit_price := price2 |}) in *.
  exists item2.
  assert (order_items (SupplierOrderItem_save item2 st1)
          = (order_items st0 ++ [item2])%list) as Hrows.
  { unfold SupplierOrderItem_save. cbn [order_items set_order_items].
    rewrite Hitems.
    exact (save_created_item (order_items st0) item1 item2 eq_refl eq_refl). }
  repeat split; try reflexivity; [|exact Hrows].
  unfold SupplierOrderItem_filter in *. rewrite Hrows.
  rewrite filter_app, <- (item_of_same_product order p1 p2 Hsame), Hnone. simpl.
  unfold item_of at 1. subst item2 item1. simpl. now rewrite !Z.eqb_refl.
Qed.

(** Two upserts of the same product on a store whose lines have unique
    keys: one line is left for the pair, holding what the pair held before
    and the two quantities, at the second price. *)
Lemma upserted_twice (order : SupplierOrder) (p1 p2 : Product) (q1 q2 : Z)
                     (price1 price2 : option Z) (st0 st1 : Store) :
  Product_id p1 = Product_id p2 ->
  Items_ok st0 ->
  order_items st1 = order_items (upserted order p1 q1 price1 st0) ->
  exists item,
    SupplierOrderItem_filter (upserted order p2 q2 price2 st1) order p2 = [item]
    /\ SupplierOrderItem_quantity item
       = fold_right Z.add 0
           (map SupplierOrderItem_quantity (SupplierOrderItem_filter st0 order p1))
         + q1 + q2
    /\ unit_price item = price2
    /\ (SupplierOrderItem_filter st0 order p1 <> [] ->
        map SupplierOrderItem_id (order_items (upserted order p2 q2 price2 st1))
        = map SupplierOrderItem_id (order_items st0)).
Proof.
  intros Hsame Hok Hitems.
  destruct (upserted_Items_ok order p1 q1 price1 st0 Hok)
    as [Hok1 [_ [it1 [F1 [Q1 _]]]]].
  assert (Items_ok st1) as Hok1' by (unfold Items_ok in *; now rewrite Hitems).
  destruct (upserted_Items_ok order p2 q2 price2 st1 Hok1')
    as [_ [_ [it2 [F2 [Q2 U2]]]]].
  assert (SupplierOrderItem_filter st1 order p2 = [it1]) as Hexisting.
  { unfold SupplierOrderItem_filter.
    now rewrite Hitems, <- (item_of_same_product order p1 p2 Hsame). }
  exists it2. split; [exact F2|]. split; [|split; [exact U2|]].
  - fold (SupplierOrderItem_filter st1 order p2) in Q2. rewrite Hexisting in Q2.
    cbn [map fold_right] in Q2. unfold SupplierOrderItem_filter. lia.
  - intros Hne.
    rewrite (upserted_ids_existing order p2 q2 price2 st1)
      by (rewrite Hexisting; discriminate).
    rewrite Hitems. now apply upserted_ids_existing.
Qed.

(** C6, as amended.  Two calls of [add_product_to_order] on a PENDING order,
    by a caller who may modify orders, with the same active product that
    the supplier of the order declares and with the positive quantities q1
    and q2, leave exactly one line for the (order, product) pair, on a store
    where the order holds no line for the product yet or where the lines
    have unique keys and an order holds at most one line per product.  The
    quantity of the line is what the pair held before, plus q1 + q2; its
    unit_price is the cost of the supplier, or else the sale price, as the
    store holds them at the second call.  When the order held no line for
    the product the quantity is q1 + q2 and the line is the only row added
    to the table; when it held one, q1 + q2 is added to the quantity it held
    and no row is added. *)
Theorem add_same_product_twice (user : User) (order_pk pid q1 q2 : Z)
                               (st0 st1 : Store) (order : SupplierOrder)
                               (p1 p2 : Product) (ps1 ps2 : ProductSupplier) :
  may_modify_orders user = true ->
  0 < q1 -> 0 < q2 ->
  SupplierOrder_get st0 order_pk = Ok order ->
  SupplierOrder_status order = "PENDING" ->
  Product_get_active st0 (Some pid) = Ok p1 ->
  first (ProductSupplier_filter st0 p1 order) = Some ps1 ->
  SupplierOrderItem_filter st0 order p1 = [] \/ Items_ok st0 ->
  order_items st1
  = order_items
      (snd (add_product_to_order user order_pk (OrderJson (Some pid) (Some q1)) st0)) ->
  SupplierOrder_get st1 order_pk = Ok order ->
  Product_get_active st1 (Some pid) = Ok p2 ->
  first (ProductSupplier_filter st1 p2 order) = Some ps2 ->
  exists item,
    let st2 :=
      snd (add_product_to_order user order_pk (OrderJson (Some pid) (Some q2)) st1) in
    SupplierOrderItem_filter st2 order p2 = [item]
    /\ SupplierOrderItem_quantity item
       = fold_right Z.add 0
           (map SupplierOrderItem_quantity (SupplierOrderItem_filter st0 order p1))
         + q1 + q2
    /\ unit_price item = resolve_unit_price ps2 p2
    /\ (SupplierOrderItem_filter st0 order p1 = [] ->
        SupplierOrderItem_quantity item = q1 + q2
        /\ order_items st2 = (order_items st0 ++ [item])%list)
    /\ (forall existing,
          In existing (SupplierOrderItem_filter st0 order p1) ->
          SupplierOrderItem_filter st0 order p1 = [existing]
          /\ SupplierOrderItem_quantity item
             = SupplierOrderItem_quantity existing + q1 + q2
          /\ map SupplierOrderItem_id (order_items st2)
             = map SupplierOrderItem_id (order_items st0)).
Proof.
  intros Hperm Hq1 Hq2 Hget0 Hstatus Hprod0 Hps0 Hstart Hitems Hget1 Hprod1 Hps1.
  assert (Product_id p1 = Product_id p2) as Hsame.
  { apply Product_get_active_id in Hprod0, Hprod1. congruence. }
  rewrite (add_product_upserted user order_pk (Some pid) q1 st0 order p1 ps1
             Hperm Hget0 Hstatus Hq1 Hprod0 Hps0) in Hitems.
  cbv zeta.
  rewrite (add_product_upserted user order_pk (Some pid) q2 st1 order p2 ps2
             Hperm Hget1 Hstatus Hq2 Hprod1 Hps1).
  destruct Hstart as [Hnone|Hok].
  - destruct (upserted_twice_new order p1 p2 q1 q2 (resolve_unit_price ps1 p1)
                (resolve_unit_price ps2 p2) st0 st1 Hsame Hnone Hitems)
      as [item [F [Q [U R]]]].
    exists item. rewrite Hnone. cbn [map fold_right In].
    repeat split; auto; try lia; contradiction.
  - destruct (upserted_twice order p1 p2 q1 q2 (resolve_unit_price ps1 p1)
                (resolve_unit_price ps2 p2) st0 st1 Hsame Hok Hitems)
      as [item [F [Q [U I]]]].
    exists item. split; [exact F|]. split; [exact Q|]. split; [exact U|]. split.
    + intros Hnone.
      destruct (upserted_twice_new order p1 p2 q1 q2 (resolve_unit_price ps1 p1)
                  (resolve_unit_price ps2 p2) st0 st1 Hsame Hnone Hitems)
        as [item' [F' [Q' [_ R']]]].
      rewrite F in F'. injection F' as <-. split; assumption.
    + intros existing Hin.
      destruct Hok as [Hids Hkeys].
      destruct (filter_nil_or_singleton item_key (item_of order p1)
                  (SupplierOrder_id order, Product_id p1) (order_items st0) Hkeys)
        as [E|[e [He [Fe E]]]].
      * intros r _ Hr. now apply item_of_key.
      * unfold SupplierOrderItem_filter in Hin. rewrite E in Hin. destruct Hin.
      * unfold SupplierOrderItem_filter in *. rewrite E in Hin, Q, I |- *.
        destruct Hin as [<-|[]]. cbn [map fold_right] in Q.
        repeat split; [lia|]. apply I. discriminate.
Qed.

Lemma add_same_product_twice_witness :
  (exists item,
     let st1 :=
       raise_cost
         (snd (add_product_to_order bodeguero 1 (OrderJson (Some 5) (Some 3)) shop)) in
     let st2 :=
       snd (add_product_to_order bodeguero 1 (OrderJson (Some 5) (Some 4)) st1) in
     SupplierOrderItem_filter st2 pending_order alfajor = [item]
     /\ SupplierOrderItem_quantity item = 0 + 3 + 4
     /\ unit_price item = Some 750)
  /\ (exists item,
        let st1 :=
          snd (add_product_to_order bodeguero 1 (OrderJson (Some 5) (Some 1))
                                    shop_with_line) in
        let st2 :=
          snd (add_product_to_order bodeguero 1 (OrderJson (Some 5) (Some 2)) st1) in
        SupplierOrderItem_filter st2 pending_order alfajor = [item]
        /\ SupplierOrderItem_quantity item = 5 + 0 + 1 + 2
        /\ unit_price item = Some 600).
Proof.
  split.
  - destruct (add_same_product_twice bodeguero 1 5 3 4 shop
                (raise_cost
                   (snd (add_product_to_order bodeguero 1
                           (OrderJson (Some 5) (Some 3)) shop)))
                pending_order alfajor alfajor
                {| ProductSupplier_product := 5; ProductSupplier_supplier := 70;
                   costo := Some 600 |}
                {| ProductSupplier_product := 5; ProductSupplier_supplier := 70;
                   costo := Some 750 |}
                eq_refl eq_refl eq_refl eq_refl eq_refl eq_refl eq_refl
                (or_introl eq_refl) eq_refl eq_refl eq_refl eq_refl)
      as [item [F [Q [U _]]]].
    exists item. repeat split; assumption.
  - destruct (add_same_product_twice bodeguero 1 5 1 2 shop_with_line
                (snd (add_product_to_order bodeguero 1
                        (OrderJson (Some 5) (Some 1)) shop_with_line))
                pending_order alfajor alfajor
                {| ProductSupplier_product := 5; ProductSupplier_supplier := 70;
                   costo := Some 600 |}
                {| ProductSupplier_product := 5; ProductSupplier_supplier := 70;
                   costo := Some 600 |}
                eq_refl eq_refl eq_refl eq_refl eq_refl eq_refl eq_refl
                (or_intror shop_with_line_Items_ok) eq_refl eq_refl eq_refl eq_refl)
      as [item [F [Q [U _]]]].
    exists item. repeat split; assumption.
Defined.

(** C6, as stated, fails on a PENDING order and an active product in two
    ways: when the supplier of the order does not declare the product both
    calls are refused and no line exists; and when the order already holds
    a line for the product the quantities are added to what it held. *)
Lemma add_same_product_twice_counterexample :
  (SupplierOrder_get shop 1 = Ok pending_order
   /\ SupplierOrder_status pending_order = "PENDING"
   /\ Product_get_active shop (Some 7) = Ok yerba
   /\ let r1 := add_product_to_order bodeguero 1 (OrderJson (Some 7) (Some 2)) shop in
      let r2 := add_product_to_order bodeguero 1 (OrderJson (Some 7) (Some 3)) (snd r1) in
      fst r1 = OrderError 400 "Este producto no pertenece al proveedor de la orden"
      /\ fst r2 = OrderError 400 "Este producto no pertenece al proveedor de la orden"
      /\ SupplierOrderItem_filter (snd r2) pending_order yerba = [])
  /\ (SupplierOrder_get shop_with_line 1 = Ok pending_order
      /\ Product_get_active shop_with_line (Some 5) = Ok alfajor
      /\ let r1 :=
           add_product_to_order bodeguero 1 (OrderJson (Some 5) (Some 1))
                                shop_with_line in
         let r2 :=
           add_product_to_order bodeguero 1 (OrderJson (Some 5) (Some 2)) (snd r1) in
         SupplierOrderItem_filter (snd r2) pending_order alfajor
         = [{| SupplierOrderItem_id := 1; SupplierOrderItem_order := 1;
               SupplierOrderItem_product := 5; SupplierOrderItem_quantity := 8;
               unit_price := Some 600 |}]).
Proof. repeat split. Qed.

(** * The read-only endpoints *)

Lemma total_stock_sum (stock : list Inventory) :
  total_stock stock = fold_right Z.add 0 (map Inventory_quantity stock).
Proof.
  unfold total_stock.
  assert (forall acc,
            fold_left (fun a item => a + Inventory_quantity item) stock acc
            = acc + fold_right Z.add 0 (map Inventory_quantity stock)) as H.
  { induction stock as [|i l IH]; intros acc; simpl; [lia|]. rewrite IH. lia. }
  rewrite H. lia.
Qed.

Lemma product_entries_prefetched (st : Store) (ps : list Product) :
  product_entries (map (prefetch_stock st) ps) = map (entry_of st) ps.
Proof.
  unfold product_entries.
  assert (forall acc,
            fold_left
              (fun results (ps : ProductWithStock) =>
                 let '(product, stock) := ps in
                 append results
                   {| entry_id := Product_id product;
                      entry_name := Product_name product;
                      entry_sku := Product_sku product;
                      entry_price := or_zero (precio_venta product);
                      entry_stock := total_stock stock |})
              (map (prefetch_stock st) ps) acc
            = (acc ++ map (entry_of st) ps)%list) as H.
  { induction ps as [|p l IH]; intros acc; simpl; [now rewrite app_nil_r|].
    rewrite IH. unfold append. rewrite <- app_assoc. simpl.
    unfold entry_of at 2, stock_sum, stock_all. now rewrite total_stock_sum. }
  apply H.
Qed.

Lemma stock_info_rows (rows : list InventoryWithZone) :
  fold_left
    (fun acc (item : InventoryWithZone) =>
       let '(i, zone, warehouse) := item in
       append acc {| info_zone_id := Zone_id zone;
                     info_zone_name := Zone_str zone warehouse;
                     info_stock := Inventory_quantity i |})
    rows []
  = map info_of rows.
Proof.
  assert (forall acc,
            fold_left
              (fun acc (item : InventoryWithZone) =>
                 let '(i, zone, warehouse) := item in
                 append acc {| info_zone_id := Zone_id zone;
                               info_zone_name := Zone_str zone warehouse;
                               info_stock := Inventory_quantity i |})
              rows acc
            = (acc ++ map info_of rows)%list) as H.
  { induction rows as [|[[i z] w] l IH]; intros acc; simpl; [now rewrite app_nil_r|].
    rewrite IH. unfold append. now rewrite <- app_assoc. }
  apply H.
Qed.

Lemma In_firstn {A} (n : nat) (l : list A) (x : A) : In x (firstn n l) -> In x l.
Proof.
  revert l. induction n as [|n IH]; intros [|a l]; simpl; try tauto.
  intros [->|H]; auto.
Qed.

Lemma In_skipn {A} (n : nat) (l : list A) (x : A) : In x (skipn n l) -> In x l.
Proof.
  revert l. induction n as [|n IH]; intros [|a l]; simpl; try tauto.
  intros H. right. now apply IH.
Qed.

Lemma In_insert_by_name (p x : Product) (l : list Product) :
  In x (insert_by_name p l) -> x = p \/ In x l.
Proof.
  induction l as [|q r IH]; simpl.
  - intros [->|[]]. now left.
  - destruct (String.leb (Product_name p) (Product_name q)); simpl.
    + intros [->|[->|H]]; auto.
    + intros [->|H]; auto. destruct (IH H); auto.
Qed.

Lemma In_order_by_name (x : Product) (l : list Product) :
  In x (order_by_name l) -> In x l.
Proof.
  induction l as [|p r IH]; simpl; [tauto|].
  intros H. apply In_insert_by_name in H. destruct H as [->|H]; auto.
Qed.

(** The answer of the listing to a request for a page from the first on,
    with a positive page size. *)
Lemma listing_page (st : Store) (page page_size : Z) :
  1 <= page -> 1 <= page_size ->
  run (get_all_products_for_sale (page_request page page_size)) st
  = ProductsPage
      (map (entry_of st)
           (slice ((page - 1) * page_size) ((page - 1) * page_size + page_size)
                  (order_by_name (filter Product_is_active (products st)))))
      (Z.of_nat (List.length (filter Product_is_active (products st))))
      page page_size
      ((Z.of_nat (List.length (filter Product_is_active (products st)))
        + page_size - 1) / page_size).
Proof.
  intros Hpage Hsize. unfold get_all_products_for_sale, page_request.
  cbn [param_page param_page_size int_param].
  assert (((page - 1) * page_size <? 0) = false) as -> by (apply Z.ltb_ge; nia).
  assert (((page - 1) * page_size + page_size <? 0) = false) as ->
    by (apply Z.ltb_ge; nia).
  cbn [orb run exec]. unfold floordiv.
  assert ((page_size =? 0) = false) as -> by (apply Z.eqb_neq; lia).
  cbn [run]. now rewrite product_entries_prefetched.
Qed.

(** C9.  The product search and the product listing report, for each
    product they list, the sum of the quantity over all the rows of the
    ledger that name the product, whatever their quantity: the search
    reports it for the first ten active products that match the query, the
    listing for the active products of the requested page in the order of
    their names.  The stock lookup lists the rows of the product whose
    quantity is strictly positive, one entry per row with its quantity, and
    no other row.  On the shop the two differ: the alfajor has two rows,
    one of them empty; both are summed by the search and by the listing,
    one is listed by the lookup. *)
Theorem stock_conventions (st : Store) :
  (forall p,
     entry_stock (entry_of st p)
     = fold_right Z.add 0
         (map Inventory_quantity
              (filter (fun i => Inventory_product i =? Product_id p) (inventory st))))
  /\ (forall params,
        run (search_products_for_sale params) st
        = ProductsSuccess
            (map (entry_of st)
                 (if (Str.len (search_query params) <? 2)%nat then []
                  else firstn 10
                         (filter (matches (search_query params)) (products st)))))
  /\ (forall page page_size,
        1 <= page -> 1 <= page_size ->
        run (get_all_products_for_sale (page_request page page_size)) st
        = ProductsPage
            (map (entry_of st)
                 (slice ((page - 1) * page_size) ((page - 1) * page_size + page_size)
                        (order_by_name (filter Product_is_active (products st)))))
            (Z.of_nat (List.length (filter Product_is_active (products st))))
            page page_size
            ((Z.of_nat (List.length (filter Product_is_active (products st)))
              + page_size - 1) / page_size))
  /\ (forall product_id,
        run (get_product_stock_info product_id) st
        = StockSuccess
            (map info_of
                 (flat_map (join_zone st)
                    (filter (fun i => (Inventory_product i =? product_id)
                                      && (0 <? Inventory_quantity i))
                            (inventory st))))
        /\ forall i z w,
             In (i, z, w)
                (flat_map (join_zone st)
                   (filter (fun i => (Inventory_product i =? product_id)
                                     && (0 <? Inventory_quantity i))
                           (inventory st))) ->
             In i (inventory st)
             /\ Inventory_product i = product_id
             /\ 0 < Inventory_quantity i
             /\ Zone_id z = Inventory_zone i)
  /\ (Inventory_quantity alfajor_en_zona_a = 0
      /\ Inventory_quantity alfajor_en_ventas = 10
      /\ run (search_products_for_sale {| param_q := Some "alfa"; param_query := None |})
             shop
         = ProductsSuccess
             [{| entry_id := 5; entry_name := "Alfajor"; entry_sku := "ALF-005";
                 entry_price := 1000; entry_stock := 10 |}]
      /\ run (get_all_products_for_sale
                {| param_page := Absent; param_page_size := Absent |}) shop
         = ProductsPage
             [{| entry_id := 5; entry_name := "Alfajor"; entry_sku := "ALF-005";
                 entry_price := 1000; entry_stock := 10 |};
              {| entry_id := 7; entry_name := "Yerba"; entry_sku := "YER-007";
                 entry_price := 2500; entry_stock := 0 |}]
             2 1 50 1
      /\ run (get_product_stock_info 5) shop
         = StockSuccess
             [{| info_zone_id := 2;
                 info_zone_name := "Sala de Ventas (en Bodega Central)";
                 info_stock := 10 |}]).
Proof.
  split; [reflexivity|]. split; [|split; [|split]].
  - intros params. unfold search_products_for_sale. fold (search_query params).
    destruct (Str.len (search_query params) <? 2)%nat; [reflexivity|].
    cbn [run exec]. now rewrite product_entries_prefetched.
  - intros page page_size Hpage Hsize. now apply listing_page.
  - intros product_id. split.
    + cbn [run exec get_product_stock_info]. now rewrite stock_info_rows.
    + intros i z w Hin. apply in_flat_map in Hin. destruct Hin as [i' [Hi' Hjoin]].
      unfold join_zone in Hjoin. apply in_flat_map in Hjoin.
      destruct Hjoin as [z' [Hz' Hw]]. apply in_map_iff in Hw.
      destruct Hw as [w' [[= <- <- <-] _]].
      apply filter_In in Hi', Hz'. destruct Hi' as [Hin Hf], Hz' as [_ Hz].
      apply andb_true_iff in Hf. destruct Hf as [Hprod Hpos].
      apply Z.eqb_eq in Hprod, Hz. apply Z.ltb_lt in Hpos. auto.
  - repeat split.
Qed.

(** C10.  When the query string has fewer than two characters, counted as
    Python counts them, the search is the immediate answer "success, no
    products": on every store it yields that answer and sends no query. *)
Theorem short_query_is_not_searched (params : SearchParams) :
  (Str.len (search_query params) < 2)%nat ->
  search_products_for_sale params = Return (ProductsSuccess [])
  /\ forall st,
       run (search_products_for_sale params) st = ProductsSuccess []
       /\ queries (search_products_for_sale params) st = 0%nat.
Proof.
  intros Hlen. apply Nat.ltb_lt in Hlen.
  assert (search_products_for_sale params = Return (ProductsSuccess [])) as E.
  { unfold search_products_for_sale. fold (search_query params). now rewrite Hlen. }
  split; [exact E|]. intros st. now rewrite E.
Qed.

(** One character that takes two bytes: the search for it is not sent. *)
Lemma short_query_is_not_searched_witness :
  String.length "ñ" = 2%nat
  /\ search_products_for_sale {| param_q := Some "ñ"; param_query := Some "alfajor" |}
     = Return (ProductsSuccess [])
  /\ forall st,
       run (search_products_for_sale
              {| param_q := Some "ñ"; param_query := Some "alfajor" |}) st
       = ProductsSuccess []
       /\ queries (search_products_for_sale
                     {| param_q := Some "ñ"; param_query := Some "alfajor" |}) st
          = 0%nat.
Proof.
  split; [reflexivity|].
  apply (short_query_is_not_searched
           {| param_q := Some "ñ"; param_query := Some "alfajor" |}).
  apply Nat.ltb_lt. reflexivity.
Defined.

(** A query of two characters or more is sent to the store, once. *)
Example long_query_is_searched :
  queries (search_products_for_sale {| param_q := None; param_query := Some "al" |})
          shop = 1%nat
  /\ run (search_products_for_sale {| param_q := None; param_query := Some "al" |})
         shop
     = ProductsSuccess [entry_of shop alfajor].
Proof. split; reflexivity. Qed.

Example listing_first_page :
  run (get_all_products_for_sale {| param_page := Absent; param_page_size := Absent |})
      shop
  = ProductsPage [entry_of shop alfajor; entry_of shop yerba] 2 1 50 1.
Proof. reflexivity. Qed.

(** * Further properties of the sale processor *)

(** What one step of the commit loop does on any store: it appends one
    sale line for the sale, of the quantity of the cart line, adds its
    price to the running total, and rewrites ledger rows in place. *)
Lemma sell_item_inv (sale : Sale) (z : Zone) (item : CartItem) (total : Z)
                    (st : Store) (total' : Z) (st' : Store) :
  sell_item sale z item total st = Ok (total', st') ->
  exists si,
    sale_items st' = (sale_items st ++ [si])%list
    /\ SaleItem_sale si = Sale_id sale
    /\ SaleItem_quantity si = get_quantity item
    /\ total' = total + price_at_sale si * SaleItem_quantity si
    /\ map Inventory_id (inventory st') = map Inventory_id (inventory st)
    /\ sales st' = sales st
    /\ warehouses st' = warehouses st /\ zones st' = zones st
    /\ products st' = products st
    /\ supplier_orders st' = supplier_orders st
    /\ order_items st' = order_items st
    /\ product_suppliers st' = product_suppliers st.
Proof.
  unfold sell_item.
  destruct (Product_get st (cart_id item)) as [p|e]; cbn [bind]; [|discriminate].
  destruct (Inventory_get st p z) as [inv|e]; cbn [bind]; [|discriminate].
  cbv zeta. intros [= <- <-].
  eexists. cbn. repeat split.
  rewrite map_map. apply map_ext. intros r.
  destruct (Inventory_id r =? Inventory_id inv) eqn:E; [|reflexivity].
  apply Z.eqb_eq in E. now rewrite E.
Qed.

Lemma sell_cart_inv (sale : Sale) (z : Zone) (cart : list CartItem) :
  forall (total : Z) (st : Store) (total' : Z) (st' : Store),
  sell_cart sale z cart total st = Ok (total', st') ->
  exists items,
    sale_items st' = (sale_items st ++ items)%list
    /\ Forall (fun si => SaleItem_sale si = Sale_id sale) items
    /\ map SaleItem_quantity items = map get_quantity cart
    /\ total' = total + amount items
    /\ map Inventory_id (inventory st') = map Inventory_id (inventory st)
    /\ sales st' = sales st
    /\ warehouses st' = warehouses st /\ zones st' = zones st
    /\ products st' = products st
    /\ supplier_orders st' = supplier_orders st
    /\ order_items st' = order_items st
    /\ product_suppliers st' = product_suppliers st.
Proof.
  induction cart as [|item rest IH]; intros total st total' st'; simpl.
  - intros [= <- <-]. exists []. rewrite app_nil_r. simpl.
    repeat split; auto. lia.
  - destruct (sell_item sale z item total st) as [[t1 st1]|e] eqn:E1;
      [|discriminate].
    cbn [bind]. intros E2.
    destruct (sell_item_inv sale z item total st t1 st1 E1)
      as [si [H1 [H2 [H3 [H4 [H5 [H6 [H7 [H8 [H9 [H10 [H11 H12]]]]]]]]]]]].
    destruct (IH t1 st1 total' st' E2)
      as [items [G1 [G2 [G3 [G4 [G5 [G6 [G7 [G8 [G9 [G10 [G11 G12]]]]]]]]]]]].
    exists (si :: items). simpl.
    repeat split; try congruence.
    + rewrite G1, H1, <- app_assoc. reflexivity.
    + constructor; assumption.
    + lia.
Qed.

(** The block under [transaction.atomic()], when it does not raise. *)
Lemma commit_sale_inv (user : Z) (client_id : option Z) (z : Zone)
                      (cart : list CartItem) (st : Store) (sale : Sale) (st' : Store) :
  commit_sale user client_id z cart st = Ok (sale, st') ->
  exists items,
    sales st' = (sales st ++ [sale])%list
    /\ Sale_id sale = next_pk (map Sale_id (sales st))
    /\ Sale_user sale = user
    /\ Sale_client_id sale = client_or_None client_id
    /\ total_amount sale = amount items
    /\ sale_items st' = (sale_items st ++ items)%list
    /\ Forall (fun si => SaleItem_sale si = Sale_id sale) items
    /\ map SaleItem_quantity items = map get_quantity cart
    /\ map Inventory_id (inventory st') = map Inventory_id (inventory st)
    /\ warehouses st' = warehouses st /\ zones st' = zones st
    /\ products st' = products st
    /\ supplier_orders st' = supplier_orders st
    /\ order_items st' = order_items st
    /\ product_suppliers st' = product_suppliers st.
Proof.
  unfold commit_sale, Sale_create.
  destruct (client_exists st (client_or_None client_id)); [|discriminate].
  cbn [bind].
  set (sale0 := {| Sale_id := next_pk (map Sale_id (sales st));
                   Sale_client_id := client_or_None client_id;
                   Sale_user := user; total_amount := 0 |}).
  set (st1 := set_sales (append (sales st) sale0) st).
  destruct (sell_cart sale0 z cart 0 st1) as [[total st2]|e] eqn:E; [|discriminate].
  cbn [bind]. intros [= <- <-].
  destruct (sell_cart_inv sale0 z cart 0 st1 total st2 E)
    as [items [G1 [G2 [G3 [G4 [G5 [G6 [G7 [G8 [G9 [G10 [G11 G12]]]]]]]]]]]].
  exists items. cbn. rewrite G6. subst st1. cbn.
  repeat split; auto; try lia.
  apply (save_created_sale (sales st) sale0 (with_total_amount total sale0));
    reflexivity.
Qed.

(** The block raises when the request names a client the store lacks. *)
Lemma commit_sale_names (user : Z) (client_id : option Z) (z : Zone)
                        (cart : list CartItem) (st : Store) (sale : Sale) (st' : Store) :
  commit_sale user client_id z cart st = Ok (sale, st') ->
  names_client st client_id.
Proof.
  intros C. apply names_client_exists. revert C. unfold commit_sale, Sale_create.
  destruct (client_exists st (client_or_None client_id)); [reflexivity|discriminate].
Qed.

(** The two ways a call of [process_sale] ends: an error and the store as
    it was, or a success and the store the atomic block left. *)
Lemma process_sale_cases (user : Z) (body : Body) (st : Store) :
  (snd (process_sale user body st) = st
   /\ exists code errors, fst (process_sale user body st) = Error code errors)
  \/ exists client_id cart z sale st',
       body = Json client_id cart
       /\ cart <> []
       /\ get_sales_zone st = Some z
       /\ validate_cart st z cart [] = Ok []
       /\ commit_sale user client_id z cart st = Ok (sale, st')
       /\ process_sale user body st
          = (Success (Sale_id sale) (total_amount sale), st').
Proof.
  destruct body as [|client_id cart]; [left; simpl; eauto|].
  destruct cart as [|item rest]; [left; simpl; eauto|].
  unfold process_sale.
  destruct (get_sales_zone st) as [z|]; [|left; simpl; eauto].
  destruct (validate_cart st z (item :: rest) []) as [[|m errors]|e] eqn:V;
    [|left; simpl; eauto|left; simpl; eauto].
  unfold atomic.
  destruct (commit_sale user client_id z (item :: rest) st) as [[sale st']|e] eqn:C;
    [|left; simpl; eauto].
  right. exists client_id, (item :: rest), z, sale, st'.
  repeat split; auto. discriminate.
Qed.

(** X1.  A checkout is all or nothing: whenever [process_sale] answers with
    an error, whatever the status, the store is the one it was given. *)
Theorem process_sale_error_rolls_back (user : Z) (body : Body) (st : Store)
                                      (code : Z) (errors : string) :
  fst (process_sale user body st) = Error code errors ->
  snd (process_sale user body st) = st.
Proof.
  intros E.
  destruct (process_sale_cases user body st)
    as [[H _]|[c [cart [z [sale [st' [_ [_ [_ [_ [_ H]]]]]]]]]]]; [exact H|].
  rewrite H in E. discriminate.
Qed.

Lemma process_sale_error_rolls_back_witness :
  snd (process_sale 1 (Json None [line 5 2; line 5 20]) shop) = shop.
Proof.
  apply (process_sale_error_rolls_back 1 (Json None [line 5 2; line 5 20]) shop 400
           "Stock insuficiente para Alfajor. Disponible: 10, Solicitado: 20").
  reflexivity.
Defined.

(** X2.  Whatever the request, [process_sale] leaves the catalogue, the
    zones, the warehouses and the supplier orders as they were, and the
    ledger keeps the same rows, by primary key and in the same order: a
    checkout only rewrites quantities and appends sales and sale lines. *)
Theorem process_sale_frame (user : Z) (body : Body) (st : Store) :
  let st' := snd (process_sale user body st) in
  warehouses st' = warehouses st
  /\ zones st' = zones st
  /\ products st' = products st
  /\ supplier_orders st' = supplier_orders st
  /\ order_items st' = order_items st
  /\ product_suppliers st' = product_suppliers st
  /\ map Inventory_id (inventory st') = map Inventory_id (inventory st)
  /\ (exists new_sales, sales st' = (sales st ++ new_sales)%list)
  /\ (exists new_items, sale_items st' = (sale_items st ++ new_items)%list).
Proof.
  cbv zeta.
  destruct (process_sale_cases user body st)
    as [[H _]|[c [cart [z [sale [st' [_ [_ [_ [_ [C H]]]]]]]]]]].
  - rewrite H. repeat split; auto; exists []; now rewrite app_nil_r.
  - rewrite H. cbn [snd].
    destruct (commit_sale_inv user c z cart st sale st' C)
      as [items [G1 [_ [_ [_ [_ [G6 [_ [_ [G9 [? [? [? [? [? ?]]]]]]]]]]]]]]].
    repeat split; auto; eauto.
Qed.

(** X3.  On any store, a successful checkout records exactly one sale, with
    the id and the total of the response, an id no earlier sale carries, and
    the user and client of the request; it appends one sale line per cart
    line, each attached to that sale and carrying the quantity of its cart
    line, and the total is the sum over those lines of price_at_sale times
    quantity. *)
Theorem process_sale_success_records (user : Z) (client_id : option Z)
                                     (cart : list CartItem) (st : Store)
                                     (id total : Z) (st' : Store) :
  process_sale user (Json client_id cart) st = (Success id total, st') ->
  exists items,
    sales st' = (sales st ++ [{| Sale_id := id;
                                 Sale_client_id := client_or_None client_id;
                                 Sale_user := user;
                                 total_amount := total |}])%list
    /\ (forall s, In s (sales st) -> Sale_id s < id)
    /\ sale_items st' = (sale_items st ++ items)%list
    /\ Forall (fun si => SaleItem_sale si = id) items
    /\ map SaleItem_quantity items = map get_quantity cart
    /\ total = amount items
    /\ cart <> [].
Proof.
  intros E.
  destruct (process_sale_cases user (Json client_id cart) st)
    as [[_ [code [errors H]]]|[c [cart' [z [sale [st'' [B [Hne [_ [_ [C H]]]]]]]]]]].
  - rewrite E in H. discriminate.
  - injection B as <- <-. rewrite E in H. injection H as -> -> ->.
    destruct (commit_sale_inv user client_id z cart st sale st'' C)
      as [items [G1 [G2 [G3 [G4 [G5 [G6 [G7 [G8 _]]]]]]]]].
    exists items. repeat split; auto.
    + rewrite G1. do 2 f_equal. destruct sale; simpl in *; congruence.
    + intros s Hs. rewrite G2. apply next_pk_fresh. now apply in_map.
Qed.

Lemma process_sale_success_records_witness :
  exists items,
    sale_items (snd (process_sale 1 (Json (Some 0) [line 5 2; line 5 3]) shop))
    = (sale_items shop ++ items)%list
    /\ map SaleItem_quantity items = [2; 3]
    /\ amount items = 5000.
Proof.
  destruct (process_sale_success_records 1 (Some 0) [line 5 2; line 5 3] shop 1 5000
              (snd (process_sale 1 (Json (Some 0) [line 5 2; line 5 3]) shop))
              eq_refl)
    as [items [_ [_ [H3 [_ [H5 [H6 _]]]]]]].
  exists items. repeat split; [exact H3|exact H5|symmetry; exact H6].
Defined.

Lemma line_errors_nil (st : Store) (z : Zone) (cart : list CartItem) :
  line_errors st z cart = [] ->
  forall item, In item cart -> fails st z item = false.
Proof.
  intros E item Hin.
  destruct (fails st z item) eqn:F; [|reflexivity].
  assert (In item (filter (fails st z) cart)) as Hf by (apply filter_In; auto).
  pose proof (line_errors_length st z cart) as L. rewrite E in L.
  destruct (filter (fails st z) cart); [destruct Hf|discriminate].
Qed.

(** On a store that satisfies the constraints, the validation pass lets a
    cart through exactly when each of its lines is in stock. *)
Lemma validate_cart_passes (st : Store) (z : Zone) (cart : list CartItem) :
  Store_ok st = true ->
  validate_cart st z cart [] = Ok [] ->
  forall item, In item cart ->
    exists p inv, line_in_stock st z item p inv
                  /\ get_quantity item <= Inventory_quantity inv.
Proof.
  intros Hok V item Hin.
  rewrite (validate_cart_status st z cart (Store_ok_products st Hok)
             (Store_ok_inventory_keys st Hok) []) in V.
  injection V as V. simpl in V.
  apply (fails_false_iff st z item Hok).
  now apply (line_errors_nil st z cart).
Qed.

(** The store a successful checkout leaves, on a store that satisfies the
    constraints. *)
Lemma process_sale_Success_store (user : Z) (client_id : option Z)
                                 (cart : list CartItem) (st : Store)
                                 (id total : Z) (st' : Store) :
  Store_ok st = true ->
  process_sale user (Json client_id cart) st = (Success id total, st') ->
  exists z,
    get_sales_zone st = Some z
    /\ (forall item, In item cart ->
          exists p inv, line_in_stock st z item p inv
                        /\ get_quantity item <= Inventory_quantity inv)
    /\ inventory st' = stock_after z cart (inventory st)
    /\ products st' = products st.
Proof.
  intros Hok E.
  destruct (process_sale_cases user (Json client_id cart) st)
    as [[_ [code [errors H]]]|[c [cart' [z [sale [st'' [B [Hne [Hz [V [C H]]]]]]]]]]].
  - rewrite E in H. discriminate.
  - injection B as <- <-.
    pose proof (validate_cart_passes st z cart Hok V) as Hall.
    destruct (process_sale_success user client_id cart st z Hok
                (commit_sale_names user client_id z cart st sale st'' C) Hne Hz Hall)
      as [items [E' _]].
    rewrite E in E'. injection E' as _ _ ->.
    exists z. repeat split; auto.
Qed.

Lemma stock_after_ids (z : Zone) (cart : list CartItem) (rows : list Inventory) :
  map Inventory_id (stock_after z cart rows) = map Inventory_id rows.
Proof.
  unfold stock_after. rewrite map_map. apply map_ext.
  intros r. now destruct (Inventory_zone r =? Zone_id z).
Qed.

(** X4.  [process_sale] keeps the constraints of the schema: on a store
    whose primary keys are unique and whose ledger holds one row per
    (product, zone) pair, the store it returns is such a store again,
    whatever the request and whatever the answer. *)
Theorem process_sale_keeps_constraints (user : Z) (body : Body) (st : Store) :
  Store_ok st = true ->
  Store_ok (snd (process_sale user body st)) = true.
Proof.
  intros Hok.
  destruct (process_sale_cases user body st)
    as [[H _]|[c [cart [z [sale [st' [B [_ [_ [_ [_ H]]]]]]]]]]].
  - now rewrite H.
  - subst body.
    destruct (process_sale_Success_store user c cart st _ _ st' Hok H)
      as [z' [_ [_ [Hinv Hprod]]]].
    rewrite H. cbn [snd]. unfold Store_ok in *.
    now rewrite Hprod, Hinv, stock_after_ids, stock_after_keys.
Qed.

Lemma process_sale_keeps_constraints_witness :
  Store_ok (snd (process_sale 1 (Json None [line 5 6; line 5 6]) shop)) = true.
Proof.
  apply (process_sale_keeps_constraints 1 (Json None [line 5 6; line 5 6]) shop).
  reflexivity.
Defined.

Lemma requested_nonzero (cart : list CartItem) (pid : Z) :
  requested cart pid <> 0 ->
  exists item, In item cart /\ cart_id item = Some pid.
Proof.
  intros H.
  destruct (existsb (fun item => pk_is (cart_id item) pid) cart) eqn:E.
  - apply existsb_exists in E. destruct E as [item [Hin Hid]].
    exists item. split; [exact Hin|now apply pk_is_Some].
  - exfalso. apply H. apply requested_absent. intros item Hin Hid.
    assert (existsb (fun item => pk_is (cart_id item) pid) cart = true) as E'.
    { apply existsb_exists. exists item. split; [exact Hin|now apply pk_is_Some]. }
    congruence.
Qed.

(** The stock of a product, summed over the ledger after a checkout: the
    row of the sales zone, if there is one, carries the whole decrease. *)
Lemma stock_sum_after (z : Zone) (cart : list CartItem) (pid : Z)
                      (rows : list Inventory) :
  NoDup (map inventory_key rows) ->
  fold_right Z.add 0
    (map Inventory_quantity
         (filter (fun i => Inventory_product i =? pid) (stock_after z cart rows)))
  = fold_right Z.add 0
      (map Inventory_quantity (filter (fun i => Inventory_product i =? pid) rows))
    - (if existsb (fun i => (Inventory_product i =? pid)
                            && (Inventory_zone i =? Zone_id z)) rows
       then requested cart pid else 0).
Proof.
  induction rows as [|a rows IH]; intros Hnd; [reflexivity|].
  inversion Hnd as [|? ? Hnotin Hnd']; subst. specialize (IH Hnd').
  unfold stock_after in *. cbn [map filter existsb].
  destruct (Inventory_zone a =? Zone_id z) eqn:Ez;
    destruct (Inventory_product a =? pid) eqn:Ep;
    cbn [with_quantity Inventory_product Inventory_quantity andb orb];
    rewrite ?Ep; cbn [map fold_right Inventory_quantity]; rewrite ?IH.
  - apply Z.eqb_eq in Ez, Ep.
    assert (existsb (fun i => (Inventory_product i =? pid)
                              && (Inventory_zone i =? Zone_id z)) rows = false) as ->.
    { destruct (existsb _ rows) eqn:E; [|reflexivity].
      apply existsb_exists in E. destruct E as [r [Hr Hf]].
      apply andb_true_iff in Hf. destruct Hf as [Hp Hz].
      apply Z.eqb_eq in Hp, Hz. exfalso. apply Hnotin.
      apply in_map_iff. exists r. split; [|exact Hr].
      unfold inventory_key. congruence. }
    rewrite Ep. cbn [with_quantity Inventory_quantity]. lia.
  - reflexivity.
  - lia.
  - reflexivity.
Qed.

(** X5.  After a successful checkout on a store that satisfies the
    constraints, the total stock that the product endpoints report for any
    product is the total before, less the quantity the cart requested of
    that product over all its lines; a product the cart does not name keeps
    its total. *)
Theorem checkout_lowers_total_stock (user : Z) (client_id : option Z)
                                    (cart : list CartItem) (st : Store)
                                    (id total : Z) (st' : Store) (pid : Z) :
  Store_ok st = true ->
  process_sale user (Json client_id cart) st = (Success id total, st') ->
  stock_sum st' pid = stock_sum st pid - requested cart pid
  /\ ((forall item, In item cart -> cart_id item <> Some pid) ->
      stock_sum st' pid = stock_sum st pid).
Proof.
  intros Hok E.
  destruct (process_sale_Success_store user client_id cart st id total st' Hok E)
    as [z [_ [Hall [Hinv _]]]].
  assert (stock_sum st' pid = stock_sum st pid - requested cart pid) as Hsum.
  { unfold stock_sum. rewrite Hinv.
    rewrite (stock_sum_after z cart pid (inventory st)
               (Store_ok_inventory_keys st Hok)).
    destruct (existsb _ (inventory st)) eqn:Ex; [reflexivity|].
    destruct (Z.eq_dec (requested cart pid) 0) as [->|Hne]; [reflexivity|].
    exfalso. destruct (requested_nonzero cart pid Hne) as [item [Hin Hid]].
    destruct (Hall item Hin) as [p [inv [[_ [Hid' [_ [Hinv' Hof]]]] _]]].
    assert (existsb (fun i => (Inventory_product i =? pid)
                              && (Inventory_zone i =? Zone_id z)) (inventory st)
            = true) as Ex'.
    { apply existsb_exists. exists inv. split; [exact Hinv'|].
      unfold inventory_of in Hof. congruence. }
    congruence. }
  split; [exact Hsum|].
  intros Habsent. rewrite Hsum, (requested_absent cart pid Habsent). lia.
Qed.

Lemma checkout_lowers_total_stock_witness :
  stock_sum (snd (process_sale 1 (Json None [line 5 2; line 5 3]) shop)) 5
  = stock_sum shop 5 - requested [line 5 2; line 5 3] 5.
Proof.
  apply (checkout_lowers_total_stock 1 None [line 5 2; line 5 3] shop 1 5000
           (snd (process_sale 1 (Json None [line 5 2; line 5 3]) shop)) 5
           eq_refl eq_refl).
Defined.

(** X6.  On a store that satisfies the constraints and has a sales zone, a
    checkout succeeds exactly when the cart is not empty, none of its lines
    fails, that is, every line names an active product whose row in the
    sales zone holds the requested quantity, and the request names no
    client or a client of the store. *)
Theorem checkout_succeeds_iff (user : Z) (client_id : option Z)
                              (cart : list CartItem) (st : Store) (z : Zone) :
  Store_ok st = true ->
  get_sales_zone st = Some z ->
  (exists id total st',
     process_sale user (Json client_id cart) st = (Success id total, st'))
  <-> cart <> []
      /\ (forall item, In item cart -> fails st z item = false)
      /\ names_client st client_id.
Proof.
  intros Hok Hz. split.
  - intros [id [total [st' E]]].
    destruct (process_sale_cases user (Json client_id cart) st)
      as [[_ [code [errors H]]]|[c [cart' [z' [sale [st'' [B [Hne [Hz' [V [C _]]]]]]]]]]].
    + rewrite E in H. discriminate.
    + injection B as <- <-. split; [exact Hne|].
      assert (z' = z) as -> by congruence.
      split; [|exact (commit_sale_names user client_id z cart st sale st'' C)].
      intros item Hin. apply (fails_false_iff st z item Hok).
      now apply (validate_cart_passes st z cart Hok V).
  - intros [Hne [Hall Hclient]].
    destruct (process_sale_success user client_id cart st z Hok Hclient Hne Hz)
      as [items [E _]].
    + intros item Hin. apply (fails_false_iff st z item Hok). now apply Hall.
    + eauto.
Qed.

Lemma checkout_succeeds_iff_witness :
  ((exists id total st',
      process_sale 1 (Json (Some 3) [line 5 10]) shop = (Success id total, st'))
   <-> [line 5 10] <> []
       /\ (forall item, In item [line 5 10] -> fails shop ventas item = false)
       /\ names_client shop (Some 3))
  /\ ((exists id total st',
        process_sale 1 (Json (Some 99) [line 5 10]) shop = (Success id total, st'))
      <-> [line 5 10] <> []
          /\ (forall item, In item [line 5 10] -> fails shop ventas item = false)
          /\ names_client shop (Some 99)).
Proof.
  split.
  - exact (checkout_succeeds_iff 1 (Some 3) [line 5 10] shop ventas eq_refl eq_refl).
  - exact (checkout_succeeds_iff 1 (Some 99) [line 5 10] shop ventas eq_refl eq_refl).
Defined.

(** * Further properties of the sales zone and of the product endpoints *)

Lemma first_In {A} (l : list A) (x : A) : first l = Some x -> In x l.
Proof. destruct l; simpl; [discriminate|]. intros [= ->]. now left. Qed.

Lemma first_None {A} (l : list A) : first l = None -> l = [].
Proof. destruct l; simpl; [reflexivity|discriminate]. Qed.

(** X7.  The zone [get_sales_zone] answers with is a zone of the store and
    it is active; it is named for sales unless no active zone is; and the
    answer is [None] exactly when the store has no active zone.  A checkout
    therefore never sells from a closed zone. *)
Theorem sales_zone_is_active (st : Store) :
  (forall z, get_sales_zone st = Some z ->
     In z (zones st)
     /\ Zone_is_active z = true
     /\ (named_for_sales z = true
         \/ forall z', In z' (zones st) -> named_for_sales z' = false))
  /\ (get_sales_zone st = None
      <-> forall z, In z (zones st) -> Zone_is_active z = false).
Proof.
  unfold get_sales_zone.
  change (fun z => Str.icontains (Zone_name z) "venta" && Zone_is_active z)
    with named_for_sales.
  destruct (first (filter named_for_sales (zones st))) as [z0|] eqn:E.
  - apply first_In, filter_In in E. destruct E as [Hin Hn].
    split.
    + intros z [= <-]. repeat split; auto.
      unfold named_for_sales in Hn. apply andb_true_iff in Hn. tauto.
    + split; [discriminate|]. intros Hnone.
      unfold named_for_sales in Hn. apply andb_true_iff in Hn.
      rewrite (Hnone z0 Hin) in Hn. destruct Hn. discriminate.
  - apply first_None in E. split.
    + intros z Hz. apply first_In, filter_In in Hz. destruct Hz as [Hin Ha].
      repeat split; auto. right. now apply filter_nil_all.
    + split.
      * intros Hz. apply first_None in Hz. now apply filter_nil_all.
      * intros Hnone. now rewrite (filter_none Zone_is_active (zones st) Hnone).
Qed.

Lemma length_firstn_le {A} (n : nat) (l : list A) :
  (List.length (firstn n l) <= n)%nat.
Proof. rewrite length_firstn. lia. Qed.

(** X8.  For a query of two characters or more, counted as Python counts
    them, the product search lists at most ten products; every product it
    lists is an active product of the catalogue whose name or SKU contains
    the query in any case; when ten or fewer products match, all of them
    are listed, in the order of the catalogue; and a non-empty [q]
    parameter decides the query whatever the [query] parameter holds. *)
Theorem search_lists_matches (params : SearchParams) (st : Store) :
  (2 <= Str.len (search_query params))%nat ->
  exists ps,
    run (search_products_for_sale params) st = ProductsSuccess (map (entry_of st) ps)
    /\ (List.length ps <= 10)%nat
    /\ (forall p, In p ps ->
          In p (products st) /\ matches (search_query params) p = true)
    /\ ((List.length (filter (matches (search_query params)) (products st)) <= 10)%nat ->
        ps = filter (matches (search_query params)) (products st))
    /\ (forall q other other',
          q <> "" ->
          search_products_for_sale {| param_q := Some q; param_query := other |}
          = search_products_for_sale {| param_q := Some q; param_query := other' |}).
Proof.
  intros Hlen.
  exists (firstn 10 (filter (matches (search_query params)) (products st))).
  split; [|split; [|split; [|split]]].
  - unfold search_products_for_sale. fold (search_query params).
    assert ((Str.len (search_query params) <? 2)%nat = false) as ->
      by (apply Nat.ltb_ge; exact Hlen).
    cbn [run exec]. now rewrite product_entries_prefetched.
  - apply length_firstn_le.
  - intros p Hp. apply In_firstn, filter_In in Hp. exact Hp.
  - intros Hfew. now apply firstn_all2.
  - intros q other other' Hq. unfold search_products_for_sale. simpl.
    destruct q; [congruence|reflexivity].
Qed.

Lemma search_lists_matches_witness :
  exists ps,
    run (search_products_for_sale {| param_q := Some "AL"; param_query := None |}) shop
    = ProductsSuccess (map (entry_of shop) ps)
    /\ (List.length ps <= 10)%nat.
Proof.
  destruct (search_lists_matches {| param_q := Some "AL"; param_query := None |} shop)
    as [ps [H1 [H2 _]]].
  - apply Nat.leb_le. reflexivity.
  - exists ps. split; [exact H1|exact H2].
Defined.

Lemma ceiling_bounds (count page_size : Z) :
  0 <= count -> 1 <= page_size ->
  let total_pages := (count + page_size - 1) / page_size in
  0 <= total_pages
  /\ count <= total_pages * page_size
  /\ total_pages * page_size < count + page_size.
Proof.
  intros Hc Hs total_pages. subst total_pages.
  pose proof (Z.div_mod (count + page_size - 1) page_size ltac:(lia)) as D.
  pose proof (Z.mod_pos_bound (count + page_size - 1) page_size ltac:(lia)) as M.
  assert (0 <= (count + page_size - 1) / page_size)
    by (apply Z.div_pos; lia).
  nia.
Qed.

Lemma length_slice {A} (offset stop : Z) (l : list A) :
  List.length (slice offset stop l)
  = Nat.min (Z.to_nat (stop - offset)) (List.length l - Z.to_nat offset).
Proof. unfold slice. now rewrite length_firstn, length_skipn. Qed.

(** X9.  For a page number from 1 on and a positive page size, the listing
    answers with a page: its count is the number of active products, its
    number of pages is that count divided by the page size and rounded up,
    the page holds at most page_size products, every page before the last
    is full, and a page after the last is empty. *)
Theorem listing_page_bounds (st : Store) (page page_size : Z) :
  1 <= page -> 1 <= page_size ->
  exists entries count total_pages,
    run (get_all_products_for_sale (page_request page page_size)) st
    = ProductsPage entries count page page_size total_pages
    /\ count = Z.of_nat (List.length (filter Product_is_active (products st)))
    /\ count <= total_pages * page_size < count + page_size
    /\ Z.of_nat (List.length entries) <= page_size
    /\ (page < total_pages -> Z.of_nat (List.length entries) = page_size)
    /\ (total_pages < page -> entries = []).
Proof.
  intros Hpage Hsize.
  set (count := Z.of_nat (List.length (filter Product_is_active (products st)))).
  destruct (ceiling_bounds count page_size ltac:(subst count; lia) Hsize)
    as [Htp [Hlo Hhi]].
  do 3 eexists. split; [apply (listing_page st page page_size Hpage Hsize)|].
  fold count.
  assert (List.length (order_by_name (filter Product_is_active (products st)))
          = List.length (filter Product_is_active (products st))) as Hlen.
  { clear. induction (filter Product_is_active (products st)) as [|p l IH];
      [reflexivity|].
    simpl. rewrite <- IH. clear IH.
    induction (order_by_name l) as [|q r IH]; simpl; [reflexivity|].
    destruct (String.leb (Product_name p) (Product_name q)); simpl; auto. }
  rewrite length_map, length_slice, Hlen.
  replace ((page - 1) * page_size + page_size - (page - 1) * page_size)
    with page_size by lia.
  repeat split; auto.
  - lia.
  - intros Hfull.
    assert ((page - 1) * page_size + page_size < count) as Hin by nia.
    assert (0 <= (page - 1) * page_size) as Hoff by nia.
    revert Hin Hoff. generalize ((page - 1) * page_size). subst count.
    intros offset Hin Hoff. lia.
  - intros Hpast.
    assert (List.length
              (slice ((page - 1) * page_size) ((page - 1) * page_size + page_size)
                     (order_by_name (filter Product_is_active (products st))))
            = 0%nat) as L.
    { rewrite length_slice, Hlen.
      assert (count <= (page - 1) * page_size) as Hout by nia.
      revert Hout. generalize ((page - 1) * page_size). subst count.
      intros offset Hout. lia. }
    destruct (slice _ _ _); [reflexivity|discriminate].
Qed.

Lemma listing_page_bounds_witness :
  exists entries count total_pages,
    run (get_all_products_for_sale (page_request 2 1)) shop
    = ProductsPage entries count 2 1 total_pages
    /\ count = 2
    /\ Z.of_nat (List.length entries) <= 1.
Proof.
  destruct (listing_page_bounds shop 2 1) as [e [c [t [H1 [H2 [_ [H4 _]]]]]]].
  - apply Z.leb_le; reflexivity.
  - apply Z.leb_le; reflexivity.
  - exists e, c, t. repeat split; [exact H1|exact H2|exact H4].
Defined.






(** X11.  The listing answers with status 500 and no page: to a page size
    of zero, whatever the page number, because the number of pages divides
    by it; to a page number below 1 with a positive page size, before any
    query is sent, because the slice would start below zero; and to a page
    number or page size that is not the text of an integer, before any
    query is sent. *)
Theorem listing_rejects_bad_pages (st : Store) :
  (forall page,
     run (get_all_products_for_sale (page_request page 0)) st
     = ProductsError 500 "integer division or modulo by zero")
  /\ (forall page page_size,
        page < 1 -> 1 <= page_size ->
        run (get_all_products_for_sale (page_request page page_size)) st
        = ProductsError 500 "Negative indexing is not supported."
        /\ queries (get_all_products_for_sale (page_request page page_size)) st
           = 0%nat)
  /\ (forall text other,
        (exists message,
           run (get_all_products_for_sale
                  {| param_page := NotAnInteger text; param_page_size := other |}) st
           = ProductsError 500 message)
        /\ queries (get_all_products_for_sale
                      {| param_page := NotAnInteger text; param_page_size := other |})
                   st = 0%nat)
  /\ (forall text page,
        (exists message,
           run (get_all_products_for_sale
                  {| param_page := Int page; param_page_size := NotAnInteger text |}) st
           = ProductsError 500 message)
        /\ queries (get_all_products_for_sale
                      {| param_page := Int page; param_page_size := NotAnInteger text |})
                   st = 0%nat).
Proof.
  split; [|split; [|split]].
  - intros page. unfold get_all_products_for_sale, page_request.
    cbn [param_page param_page_size int_param].
    rewrite Z.mul_0_r. reflexivity.
  - intros page page_size Hpage Hsize.
    unfold get_all_products_for_sale, page_request.
    cbn [param_page param_page_size int_param].
    assert (((page - 1) * page_size <? 0) = true) as -> by (apply Z.ltb_lt; nia).
    split; reflexivity.
  - intros text other. split; [eexists|]; reflexivity.
  - intros text page. split; [eexists|]; reflexivity.
Qed.

(** * Further properties of the stock lookups *)

Lemma filter_length_one {A} (f : A -> bool) (l : list A) :
  Nat.eqb (List.length (filter f l)) 1 = true -> exists x, filter f l = [x].
Proof.
  destruct (filter f l) as [|x [|y r]]; simpl; try discriminate. eauto.
Qed.

(** When the foreign keys resolve, the join of a ledger row is the row
    with its zone and the warehouse of the zone. *)
Lemma join_zone_one (st : Store) (i : Inventory) :
  Refs_ok st = true -> In i (inventory st) ->
  exists z w, join_zone st i = [(i, z, w)].
Proof.
  unfold Refs_ok. rewrite andb_true_iff, !forallb_forall. intros [Hi Hz] Hin.
  destruct (filter_length_one _ _ (Hi i Hin)) as [z Ez].
  assert (In z (zones st)) as Hzin.
  { assert (In z (filter (fun z => Zone_id z =? Inventory_zone i) (zones st))) as H
      by (rewrite Ez; now left).
    now apply filter_In in H. }
  destruct (filter_length_one _ _ (Hz z Hzin)) as [w Ew].
  exists z, w. unfold join_zone. rewrite Ez. simpl. now rewrite Ew.
Qed.

Lemma joined_rows_stock (st : Store) (rows : list Inventory) :
  Refs_ok st = true -> (forall i, In i rows -> In i (inventory st)) ->
  map info_stock (map info_of (flat_map (join_zone st) rows))
  = map Inventory_quantity rows.
Proof.
  intros Hrefs. induction rows as [|i rows IH]; intros Hin; [reflexivity|].
  destruct (join_zone_one st i Hrefs (Hin i (or_introl eq_refl))) as [z [w E]].
  cbn [flat_map]. rewrite E. simpl. f_equal. apply IH.
  intros j Hj. apply Hin. now right.
Qed.

Lemma positive_rows_sum (pid : Z) (rows : list Inventory) :
  let all := filter (fun i => Inventory_product i =? pid) rows in
  let positive := filter (fun i => (Inventory_product i =? pid)
                                   && (0 <? Inventory_quantity i)) rows in
  fold_right Z.add 0 (map Inventory_quantity all)
  <= fold_right Z.add 0 (map Inventory_quantity positive)
  /\ ((forall i, In i rows -> Inventory_product i = pid -> 0 <= Inventory_quantity i) ->
      fold_right Z.add 0 (map Inventory_quantity positive)
      = fold_right Z.add 0 (map Inventory_quantity all)).
Proof.
  cbv zeta. induction rows as [|a rows [IH1 IH2]]; [simpl; split; auto; lia|].
  cbn [filter].
  destruct (Inventory_product a =? pid) eqn:Ep; cbn [andb].
  - destruct (0 <? Inventory_quantity a) eqn:Eq; cbn [map fold_right].
    + split; [lia|]. intros H. rewrite IH2; [reflexivity|].
      intros i Hi. apply H. now right.
    + apply Z.ltb_ge in Eq. split; [lia|]. intros H.
      rewrite IH2 by (intros i Hi; apply H; now right).
      apply Z.eqb_eq in Ep. specialize (H a (or_introl eq_refl) Ep). lia.
  - split; [exact IH1|]. intros H. apply IH2. intros i Hi. apply H. now right.
Qed.

(** X12.  When the foreign keys of the ledger resolve, the stock lookup
    lists one entry per row of the product whose quantity is positive; the
    stock it lists adds up to at least the total that the product endpoints
    report, and to exactly that total when no row of the product is
    negative. *)
Theorem stock_lookup_total (st : Store) (product_id : Z) :
  Refs_ok st = true ->
  exists infos,
    run (get_product_stock_info product_id) st = StockSuccess infos
    /\ map info_stock infos
       = map Inventory_quantity
           (filter (fun i => (Inventory_product i =? product_id)
                             && (0 <? Inventory_quantity i)) (inventory st))
    /\ stock_sum st product_id <= fold_right Z.add 0 (map info_stock infos)
    /\ ((forall i, In i (inventory st) -> Inventory_product i = product_id ->
                   0 <= Inventory_quantity i) ->
        fold_right Z.add 0 (map info_stock infos) = stock_sum st product_id).
Proof.
  intros Hrefs. eexists. cbn [run exec get_product_stock_info].
  rewrite stock_info_rows. split; [reflexivity|].
  rewrite (joined_rows_stock st _ Hrefs)
    by (intros i Hi; now apply filter_In in Hi).
  split; [reflexivity|].
  exact (positive_rows_sum product_id (inventory st)).
Qed.

Lemma stock_lookup_total_witness :
  exists infos,
    run (get_product_stock_info 5) shop = StockSuccess infos
    /\ fold_right Z.add 0 (map info_stock infos) = stock_sum shop 5.
Proof.
  destruct (stock_lookup_total shop 5 eq_refl) as [infos [H1 [_ [_ H4]]]].
  exists infos. split; [exact H1|]. apply H4.
  intros i [<-|[<-|[<-|[]]]] _; apply Z.leb_le; reflexivity.
Defined.

Lemma dict_contains_keys (k : Z) (d : WarehousesDict) :
  dict_contains k d = true <-> In k (map fst d).
Proof.
  unfold dict_contains. rewrite existsb_exists, in_map_iff. split.
  - intros [kv [Hin E]]. apply Z.eqb_eq in E. eauto.
  - intros [kv [E Hin]]. exists kv. split; [exact Hin|]. now apply Z.eqb_eq.
Qed.

Lemma dict_append_zone_keys (k : Z) (zone : ZoneStock) (d : WarehousesDict) :
  map fst (dict_append_zone k zone d) = map fst d.
Proof.
  unfold dict_append_zone. rewrite map_map. apply map_ext.
  intros kv. now destruct (fst kv =? k).
Qed.

Lemma dict_append_zone_absent (k : Z) (zone : ZoneStock) (d : WarehousesDict) :
  dict_contains k d = false -> dict_append_zone k zone d = d.
Proof.
  intros H. unfold dict_append_zone. rewrite <- (map_id d) at 2.
  apply map_ext_in. intros kv Hin.
  destruct (fst kv =? k) eqn:E; [|reflexivity].
  apply Z.eqb_eq in E.
  assert (dict_contains k d = true) as C
    by (apply dict_contains_keys; rewrite <- E; now apply in_map).
  congruence.
Qed.

Lemma filter_snoc {A} (f : A -> bool) (l : list A) (x : A) :
  filter f (l ++ [x]) = (filter f l ++ if f x then [x] else [])%list.
Proof. rewrite filter_app. reflexivity. Qed.

(** One turn of the grouping loop keeps the dict grouped. *)
Lemma group_item_Grouped (d : WarehousesDict) (done : list InventoryWithZone)
                         (r : InventoryWithZone) :
  Grouped d done -> Grouped (group_item d r) (done ++ [r]).
Proof.
  intros [Hnd [Hgroups Hkeys]].
  destruct r as [[i z] w]. unfold group_item.
  set (k0 := Warehouse_id w).
  set (zone := {| zs_id := Zone_id z; zs_name := Zone_name z;
                  zs_stock := Inventory_quantity i |}).
  destruct (dict_contains k0 d) eqn:C; cbn [negb].
  - repeat split.
    + now rewrite dict_append_zone_keys.
    + unfold dict_append_zone in H. apply in_map_iff in H.
      destruct H as [[k' g'] [E Hin]]. cbn [fst snd] in E.
      destruct (Hgroups k' g' Hin) as [Hid _].
      destruct (k' =? k0); injection E as <- <-; exact Hid.
    + unfold dict_append_zone in H. apply in_map_iff in H.
      destruct H as [[k' g'] [E Hin]]. cbn [fst snd] in E.
      destruct (Hgroups k' g' Hin) as [_ [Hzones _]].
      rewrite filter_snoc, map_app. cbn [warehouse_of]. fold k0.
      rewrite (Z.eqb_sym k0 k).
      destruct (k' =? k0) eqn:E'; injection E as <- <-; cbn [group_zones];
        rewrite E', Hzones; [reflexivity|now rewrite app_nil_r].
    + unfold dict_append_zone in H. apply in_map_iff in H.
      destruct H as [[k' g'] [E Hin]]. cbn [fst snd] in E.
      destruct (Hgroups k' g' Hin) as [_ [_ Hne]].
      destruct (k' =? k0); injection E as <- <-; cbn [group_zones];
        [unfold append; now destruct (group_zones g')|exact Hne].
    + intros r' Hin. apply dict_contains_keys. rewrite dict_append_zone_keys.
      apply dict_contains_keys. apply in_app_or in Hin.
      destruct Hin as [Hin|[<-|[]]]; [now apply Hkeys|exact C].
  - unfold dict_setitem. rewrite C. unfold append at 1.
    unfold dict_append_zone. rewrite map_app.
    fold (dict_append_zone k0 zone d).
    rewrite (dict_append_zone_absent k0 zone d C).
    cbn [map fst snd]. rewrite Z.eqb_refl.
    cbn [group_id group_name group_zones append app].
    assert (filter (fun r => warehouse_of r =? k0) done = []) as Hnone.
    { apply filter_none. intros r' Hin.
      destruct (warehouse_of r' =? k0) eqn:E; [|reflexivity].
      apply Z.eqb_eq in E. specialize (Hkeys r' Hin). congruence. }
    repeat split.
    + rewrite map_app. cbn [map fst].
      apply NoDup_app; [exact Hnd|repeat constructor; intros []|].
      intros k Hk [<-|[]].
      apply dict_contains_keys in Hk. congruence.
    + apply in_app_or in H. destruct H as [H|[[= <- <-]|[]]]; [|reflexivity].
      now destruct (Hgroups k g H).
    + rewrite filter_snoc, map_app. cbn [warehouse_of]. fold k0.
      apply in_app_or in H. destruct H as [H|[[= <- <-]|[]]].
      * destruct (Hgroups k g H) as [_ [Hzones _]].
        assert ((k0 =? k) = false) as ->.
        { apply Z.eqb_neq. intros ->.
          assert (dict_contains k d = true) as C'
            by (apply dict_contains_keys;
                apply (in_map fst d (k, g)); exact H).
          congruence. }
        now rewrite app_nil_r.
      * rewrite Z.eqb_refl, Hnone. reflexivity.
    + apply in_app_or in H. destruct H as [H|[[= <- <-]|[]]]; [|discriminate].
      now destruct (Hgroups k g H) as [_ [_ Hne]].
    + intros r' Hin. apply dict_contains_keys. rewrite map_app.
      apply in_or_app. apply in_app_or in Hin.
      destruct Hin as [Hin|[<-|[]]].
      * left. apply dict_contains_keys. now apply Hkeys.
      * right. now left.
Qed.

Lemma group_fold_Grouped (rows : list InventoryWithZone) :
  forall d done, Grouped d done ->
                 Grouped (fold_left group_item rows d) (done ++ rows).
Proof.
  induction rows as [|r rows IH]; intros d done H; simpl.
  - now rewrite app_nil_r.
  - replace (done ++ r :: rows)%list with ((done ++ [r]) ++ rows)%list
      by (now rewrite <- app_assoc).
    apply IH. now apply group_item_Grouped.
Qed.

(** X13.  The warehouse view groups the rows that the stock lookup lists:
    no warehouse appears twice; each group holds exactly the zones of the
    rows of its warehouse, in the order of the lookup, and at least one;
    and the warehouse of every row of the lookup has its group. *)
Theorem warehouses_group_the_stock (st : Store) (product_id : Z) :
  exists rows groups,
    run (get_product_stock_info product_id) st = StockSuccess (map info_of rows)
    /\ run (get_product_warehouses_and_zones product_id) st
       = WarehousesSuccess groups
    /\ NoDup (map group_id groups)
    /\ (forall g, In g groups ->
          group_zones g
          = map zone_stock_of
                (filter (fun r => warehouse_of r =? group_id g) rows)
          /\ group_zones g <> [])
    /\ (forall r, In r rows -> exists g, In g groups /\ group_id g = warehouse_of r).
Proof.
  exists (exec (Inventory_in_stock product_id) st).
  eexists. split; [|split; [reflexivity|]].
  - cbn [run get_product_stock_info]. now rewrite stock_info_rows.
  - destruct (group_fold_Grouped (exec (Inventory_in_stock product_id) st) [] [])
      as [Hnd [Hgroups Hkeys]].
    { unfold Grouped. simpl. split; [constructor|].
      split; [intros k g []|intros r []]. }
    cbn [app] in *. unfold dict_values.
    set (d := fold_left group_item (exec (Inventory_in_stock product_id) st) []) in *.
    assert (map group_id (map snd d) = map fst d) as Hids.
    { rewrite map_map. apply map_ext_in. intros [k g] Hin.
      now destruct (Hgroups k g Hin). }
    split; [now rewrite Hids|]. split.
    + intros g Hg. apply in_map_iff in Hg. destruct Hg as [[k g'] [E Hin]].
      cbn [snd] in E. subst g'.
      destruct (Hgroups k g Hin) as [Hid [Hzones Hne]]. rewrite Hid. auto.
    + intros r Hr. specialize (Hkeys r Hr). apply dict_contains_keys in Hkeys.
      apply in_map_iff in Hkeys. destruct Hkeys as [[k g] [E Hin]].
      cbn [fst] in E. exists g. split.
      * apply in_map_iff. exists (k, g). auto.
      * destruct (Hgroups k g Hin) as [Hid _]. congruence.
Qed.

Example warehouses_of_the_alfajor :
  run (get_product_warehouses_and_zones 5) shop
  = WarehousesSuccess
      [{| group_id := 1; group_name := "Bodega Central";
          group_zones := [{| zs_id := 2; zs_name := "Sala de Ventas";
                             zs_stock := 10 |}] |}].
Proof. reflexivity. Qed.

(** * Further properties of the supplier orders *)

Lemma SupplierOrder_get_id (st : Store) (order_pk : Z) (order : SupplierOrder) :
  SupplierOrder_get st order_pk = Ok order ->
  In order (supplier_orders st) /\ SupplierOrder_id order = order_pk.
Proof.
  intros H. apply queryset_get_Ok in H.
  assert (In order (filter (fun o => SupplierOrder_id o =? order_pk)
                           (supplier_orders st))) as Hin by (rewrite H; now left).
  apply filter_In in Hin. destruct Hin as [Hin E]. now apply Z.eqb_eq in E.
Qed.

(** The two ways a call of [add_product_to_order] ends: an error and the
    store as it was, or the store after the upsert, with the serialised
    lines of the order or, when a line cannot be serialised, status 500. *)
Lemma add_product_cases (user : User) (order_pk : Z) (body : OrderBody) (st : Store) :
  (snd (add_product_to_order user order_pk body st) = st
   /\ exists code message,
        fst (add_product_to_order user order_pk body st) = OrderError code message)
  \/ exists order p ps id quantity,
       body = OrderJson id quantity
       /\ may_modify_orders user = true
       /\ SupplierOrder_get st order_pk = Ok order
       /\ SupplierOrder_status order = "PENDING"
       /\ 0 < requested_quantity quantity
       /\ Product_get_active st id = Ok p
       /\ first (ProductSupplier_filter st p order) = Some ps
       /\ snd (add_product_to_order user order_pk body st)
          = upserted order p (requested_quantity quantity) (resolve_unit_price ps p) st
       /\ ((exists message,
              fst (add_product_to_order user order_pk body st) = OrderError 500 message)
           \/ exists message action d items total_quantity,
                fst (add_product_to_order user order_pk body st)
                = OrderSuccess message action d items
                               (Z.of_nat (List.length items)) total_quantity
                /\ all_items_data
                     (order_items_with_product
                        (snd (add_product_to_order user order_pk body st)) order)
                     [] 0
                   = Ok (items, total_quantity)).
Proof.
  unfold add_product_to_order.
  destruct (may_modify_orders user) eqn:Hperm; cbn [negb];
    [|left; simpl; eauto].
  destruct (SupplierOrder_get st order_pk) as [order|e] eqn:Hget;
    [|left; destruct e as [[]| | | | |]; simpl; eauto].
  destruct (String.eqb (SupplierOrder_status order) "PENDING") eqn:Hstatus;
    cbn [negb]; [|left; simpl; eauto].
  apply String.eqb_eq in Hstatus.
  destruct body as [|id quantity]; [left; simpl; eauto|].
  fold (requested_quantity quantity).
  destruct (requested_quantity quantity <=? 0) eqn:Hq; [left; simpl; eauto|].
  apply Z.leb_gt in Hq.
  destruct (Product_get_active st id) as [p|e] eqn:Hprod;
    [|left; destruct e as [[]| | | | |]; simpl; eauto].
  destruct (first (ProductSupplier_filter st p order)) as [ps|] eqn:Hps;
    [|left; simpl; eauto].
  right. exists order, p, ps, id, quantity.
  do 7 (split; [assumption || reflexivity|]).
  unfold upserted.
  destruct (first (SupplierOrderItem_filter st order p)) as [existing|];
    cbn [SupplierOrderItem_create snd fst];
    match goal with |- context [all_items_data ?a ?b ?c] =>
      destruct (all_items_data a b c) as [[items tq]|e] eqn:Hall end;
    cbn [bind];
    try (split; [reflexivity|left; eexists; reflexivity]);
    match goal with |- context [item_data ?a ?b] =>
      destruct (item_data a b) as [d|e] end;
    cbn [bind fst snd];
    (split; [reflexivity|]);
    try (left; eexists; reflexivity);
    right; do 5 eexists; (split; [reflexivity|exact Hall]).
Qed.

(** What the serialising loop returns when no line raises. *)
Lemma all_items_data_inv (rows : list (SupplierOrderItem * Product)) :
  forall acc tq data tq',
  all_items_data rows acc tq = Ok (data, tq') ->
  exists new,
    data = (acc ++ new)%list
    /\ map data_id new = map (fun r => SupplierOrderItem_id (fst r)) rows
    /\ map data_quantity new = map (fun r => SupplierOrderItem_quantity (fst r)) rows
    /\ map data_product_name new = map (fun r => Product_name (snd r)) rows
    /\ tq' = tq + fold_right Z.add 0
                    (map (fun r => SupplierOrderItem_quantity (fst r)) rows).
Proof.
  induction rows as [|[it p] rows IH]; intros acc tq data tq'; simpl.
  - intros [= <- <-]. exists []. rewrite app_nil_r. repeat split; auto. lia.
  - unfold item_data. destruct (subtotal it) as [sub|e]; cbn [bind]; [|discriminate].
    intros H. destruct (IH _ _ _ _ H) as [new [E1 [E2 [E3 [E4 E5]]]]].
    eexists (_ :: new). unfold append in E1. rewrite <- app_assoc in E1.
    split; [exact E1|]. simpl. repeat split; try congruence. lia.
Qed.

(** X14.  [get_order_items] answers 404 exactly when no order carries the
    key.  When it answers with items, total_items is their number,
    total_quantity is the sum of their quantities, and each item is a line
    of that order in the store, with its id and its quantity. *)
Theorem order_items_totals (st : Store) (order_pk : Z) :
  (get_order_items st order_pk = ItemsError 404 "Orden no encontrada"
   <-> forall o, In o (supplier_orders st) -> SupplierOrder_id o <> order_pk)
  /\ (forall items total_items total_quantity,
        get_order_items st order_pk = ItemsSuccess items total_items total_quantity ->
        total_items = Z.of_nat (List.length items)
        /\ total_quantity = fold_right Z.add 0 (map data_quantity items)
        /\ forall d, In d items ->
             exists it, In it (order_items st)
                        /\ SupplierOrderItem_order it = order_pk
                        /\ SupplierOrderItem_id it = data_id d
                        /\ SupplierOrderItem_quantity it = data_quantity d).
Proof.
  unfold get_order_items. split.
  - unfold SupplierOrder_get.
    destruct (filter (fun o => SupplierOrder_id o =? order_pk) (supplier_orders st))
      as [|o [|o' r]] eqn:F; cbn [queryset_get].
    + split; [|reflexivity]. intros _ o Hin E.
      apply Z.eqb_eq in E.
      now rewrite (filter_nil_all _ _ F o Hin) in E.
    + split.
      * destruct (all_items_data _ _ _) as [[? ?]|?]; discriminate.
      * intros H. exfalso.
        assert (In o (filter (fun o => SupplierOrder_id o =? order_pk)
                             (supplier_orders st))) as Hin by (rewrite F; now left).
        apply filter_In in Hin. destruct Hin as [Hin E].
        apply Z.eqb_eq in E. exact (H o Hin E).
    + split; [discriminate|]. intros H. exfalso.
      assert (In o (filter (fun o => SupplierOrder_id o =? order_pk)
                           (supplier_orders st))) as Hin by (rewrite F; now left).
      apply filter_In in Hin. destruct Hin as [Hin E].
      apply Z.eqb_eq in E. exact (H o Hin E).
  - intros items total_items total_quantity.
    destruct (SupplierOrder_get st order_pk) as [order|e] eqn:Hget;
      [|destruct e as [[]| | | | |]; discriminate].
    destruct (SupplierOrder_get_id st order_pk order Hget) as [_ Hid].
    destruct (all_items_data _ _ _) as [[data tq]|e] eqn:Hall; [|discriminate].
    intros [= <- <- <-].
    destruct (all_items_data_inv _ _ _ _ _ Hall) as [new [E1 [E2 [E3 [_ E5]]]]].
    cbn [app] in E1. subst new.
    split; [reflexivity|]. split; [rewrite E5, E3; lia|].
    intros d Hd.
    assert (In (data_id d, data_quantity d)
               (map (fun d => (data_id d, data_quantity d)) data)) as Hpair
      by (apply in_map_iff; eauto).
    assert (map (fun d => (data_id d, data_quantity d)) data
            = map (fun r : SupplierOrderItem * Product =>
                     (SupplierOrderItem_id (fst r), SupplierOrderItem_quantity (fst r)))
                  (order_items_with_product st order)) as Hmap.
    { clear - E2 E3. revert data E2 E3.
      induction (order_items_with_product st order) as [|r rows IH];
        intros [|d data]; simpl; try discriminate; [reflexivity|].
      intros [= -> E2] [= -> E3]. f_equal. now apply IH. }
    rewrite Hmap in Hpair. apply in_map_iff in Hpair.
    destruct Hpair as [[it p] [[= Ei Eq] Hin]].
    unfold order_items_with_product in Hin. apply in_flat_map in Hin.
    destruct Hin as [it' [Hit' Hp]]. apply in_map_iff in Hp.
    destruct Hp as [p' [[= -> ->] _]].
    apply filter_In in Hit'. destruct Hit' as [Hit' Ho]. apply Z.eqb_eq in Ho.
    exists it. repeat split; auto. congruence.
Qed.

(** X15.  A call of [add_product_to_order] that answers with success
    reports, as all_items, total_items and total_quantity, what
    [get_order_items] answers for the order on the store the call left. *)
Theorem add_product_then_get_items (user : User) (order_pk : Z) (body : OrderBody)
                                   (st st' : Store) (message action : string)
                                   (item : ItemData) (all_items : list ItemData)
                                   (total_items total_quantity : Z) :
  add_product_to_order user order_pk body st
  = (OrderSuccess message action item all_items total_items total_quantity, st') ->
  get_order_items st' order_pk = ItemsSuccess all_items total_items total_quantity.
Proof.
  intros E.
  destruct (add_product_cases user order_pk body st)
    as [[_ [code [m H]]]
       |[order [p [ps [id [q [_ [_ [Hget [_ [_ [_ [_ [Hst H]]]]]]]]]]]]]].
  - rewrite E in H. discriminate.
  - rewrite E in H, Hst. cbn [fst snd] in H, Hst.
    destruct H as [[m H]|[m [a [d [items [tq [H Hall]]]]]]]; [discriminate|].
    injection H as _ _ _ -> -> ->.
    unfold get_order_items.
    assert (SupplierOrder_get st' order_pk = Ok order) as ->.
    { rewrite Hst. unfold upserted, SupplierOrder_get.
      destruct (first (SupplierOrderItem_filter st order p)); exact Hget. }
    now rewrite Hall.
Qed.

Lemma add_product_then_get_items_witness :
  get_order_items
    (snd (add_product_to_order bodeguero 1 (OrderJson (Some 5) (Some 3)) shop)) 1
  = ItemsSuccess
      [{| data_id := 1; data_product_name := "Alfajor"; data_quantity := 3;
          data_unit_price := "600"; data_subtotal := "1800" |}]
      1 3.
Proof.
  apply (add_product_then_get_items bodeguero 1 (OrderJson (Some 5) (Some 3)) shop
           (snd (add_product_to_order bodeguero 1 (OrderJson (Some 5) (Some 3)) shop))
           "Producto Alfajor agregado exitosamente" "created"
           {| data_id := 1; data_product_name := "Alfajor"; data_quantity := 3;
              data_unit_price := "600"; data_subtotal := "1800" |}).
  reflexivity.
Defined.

(** X16.  Every refusal of [add_product_to_order], that is every answer
    with a status other than 500 that is not a success, leaves the store as
    it was: missing permission, unknown order, order not pending, bad JSON,
    quantity below 1, unknown or inactive product, product the supplier
    does not declare. *)
Theorem add_product_refusal_keeps_store (user : User) (order_pk : Z) (body : OrderBody)
                                        (st : Store) (code : Z) (message : string) :
  fst (add_product_to_order user order_pk body st) = OrderError code message ->
  code <> 500 ->
  snd (add_product_to_order user order_pk body st) = st.
Proof.
  intros E Hcode.
  destruct (add_product_cases user order_pk body st)
    as [[H _]|[order [p [ps [id [q [_ [_ [_ [_ [_ [_ [_ [_ H]]]]]]]]]]]]]];
    [exact H|].
  destruct H as [[m H]|[m [a [d [items [tq [H _]]]]]]]; rewrite E in H.
  - injection H as -> _. congruence.
  - discriminate.
Qed.

Lemma add_product_refusal_keeps_store_witness :
  snd (add_product_to_order bodeguero 1 (OrderJson (Some 5) (Some 0)) shop) = shop.
Proof.
  apply (add_product_refusal_keeps_store bodeguero 1 (OrderJson (Some 5) (Some 0)) shop
           400 "La cantidad debe ser mayor a 0").
  - reflexivity.
  - discriminate.
Defined.




(** X18.  On a store where the lines have unique keys and an order holds
    at most one line per product, a call of [add_product_to_order] that
    answers with success leaves exactly one line for the order and the
    product of the request; its quantity is the quantity the order held for
    the product before (zero when it held none) plus the requested
    quantity, which is 1 when the body carries none. *)
Theorem add_product_upserts (user : User) (order_pk pid : Z) (quantity : option Z)
                            (st st' : Store) (message action : string)
                            (item : ItemData) (all_items : list ItemData)
                            (total_items total_quantity : Z) :
  Items_ok st ->
  add_product_to_order user order_pk (OrderJson (Some pid) quantity) st
  = (OrderSuccess message action item all_items total_items total_quantity, st') ->
  let of_request it :=
    (SupplierOrderItem_order it =? order_pk)
    && (SupplierOrderItem_product it =? pid) in
  exists it,
    filter of_request (order_items st') = [it]
    /\ SupplierOrderItem_quantity it
       = fold_right Z.add 0
           (map SupplierOrderItem_quantity (filter of_request (order_items st)))
         + requested_quantity quantity
    /\ 0 < requested_quantity quantity.
Proof.
  intros Hok E of_request.
  destruct (add_product_cases user order_pk (OrderJson (Some pid) quantity) st)
    as [[_ [code [m H]]]
       |[order [p [ps [id [q [B [_ [Hget [_ [Hq [Hprod [_ [Hst _]]]]]]]]]]]]]].
  - rewrite E in H. discriminate.
  - injection B as <- <-. rewrite E in Hst. cbn [snd] in Hst.
    destruct (SupplierOrder_get_id st order_pk order Hget) as [_ Hid].
    apply Product_get_active_id in Hprod. injection Hprod as Hpid.
    assert (of_request = item_of order p) as ->.
    { subst of_request. unfold item_of. now rewrite Hid, <- Hpid. }
    destruct (upserted_Items_ok order p (requested_quantity quantity)
                (resolve_unit_price ps p) st Hok) as [_ [_ [it [H1 [H2 _]]]]].
    exists it. rewrite Hst. auto.
Qed.

Lemma add_product_upserts_witness :
  exists it,
    filter (fun it => (SupplierOrderItem_order it =? 1)
                      && (SupplierOrderItem_product it =? 5))
           (order_items
              (snd (add_product_to_order bodeguero 1 (OrderJson (Some 5) None)
                                         shop_with_line)))
    = [it]
    /\ SupplierOrderItem_quantity it = 5 + 0 + 1.
Proof.
  destruct (add_product_upserts bodeguero 1 5 None shop_with_line
              (snd (add_product_to_order bodeguero 1 (OrderJson (Some 5) None)
                                         shop_with_line))
              "Producto Alfajor agregado exitosamente" "updated"
              {| data_id := 1; data_product_name := "Alfajor"; data_quantity := 6;
                 data_unit_price := "600"; data_subtotal := "3600" |}
              [{| data_id := 1; data_product_name := "Alfajor"; data_quantity := 6;
                  data_unit_price := "600"; data_subtotal := "3600" |}]
              1 6 shop_with_line_Items_ok eq_refl)
    as [it [H1 [H2 _]]].
  exists it. split; [exact H1|exact H2].
Defined.

(** * Further properties of the price and zone lookups *)

(** X19.  On a catalogue with unique ids, [get_product_price] answers 404
    exactly when no active product carries the id; for an active product it
    answers with the name of the product and the price that the product
    endpoints report for it, zero when the product has no price. *)
Theorem product_price_lookup (st : Store) (product_id : Z) :
  Store_ok st = true ->
  (get_product_price st product_id = PriceError 404 "Producto no encontrado"
   <-> forall p, In p (products st) -> Product_id p = product_id ->
                 Product_is_active p = false)
  /\ (forall p, In p (products st) -> Product_id p = product_id ->
                Product_is_active p = true ->
                get_product_price st product_id
                = PriceSuccess (Str.of_Z (entry_price (entry_of st p)))
                               (Product_name p)).
Proof.
  intros Hok. pose proof (Store_ok_products st Hok) as Hp.
  assert (forall p, In p (products st) -> Product_id p = product_id ->
                    Product_is_active p = true ->
                    get_product_price st product_id
                    = PriceSuccess (Str.of_Z (entry_price (entry_of st p)))
                                   (Product_name p)) as Hfound.
  { intros p Hin <- Hact. unfold get_product_price.
    now rewrite (Product_get_active_found st p Hp Hin Hact). }
  split; [|exact Hfound]. split.
  - intros H p Hin Hid. destruct (Product_is_active p) eqn:Hact; [|reflexivity].
    rewrite (Hfound p Hin Hid Hact) in H. discriminate.
  - intros Hnone. unfold get_product_price, Product_get_active.
    rewrite filter_none; [reflexivity|].
    intros p Hin. cbn [pk_is].
    destruct (product_id =? Product_id p) eqn:E; [|reflexivity].
    apply Z.eqb_eq in E. now rewrite (Hnone p Hin (eq_sym E)).
Qed.

Lemma product_price_lookup_witness :
  get_product_price shop 6 = PriceError 404 "Producto no encontrado"
  /\ get_product_price shop 5 = PriceSuccess "1000" "Alfajor".
Proof.
  destruct (product_price_lookup shop 6 eq_refl) as [[_ H404] _].
  destruct (product_price_lookup shop 5 eq_refl) as [_ Hfound].
  split.
  - apply H404. intros p [<-|[<-|[<-|[]]]]; try discriminate. reflexivity.
  - apply (Hfound alfajor); [now left|reflexivity|reflexivity].
Defined.

Lemma with_warehouse_one (st : Store) (z : Zone) :
  Refs_ok st = true -> In z (zones st) -> exists w, with_warehouse st z = [(z, w)].
Proof.
  unfold Refs_ok. rewrite andb_true_iff, !forallb_forall. intros [_ Hz] Hin.
  destruct (filter_length_one _ _ (Hz z Hin)) as [w Ew].
  exists w. unfold with_warehouse. now rewrite Ew.
Qed.

Lemma joined_zone_ids (st : Store) (zs : list Zone) :
  Refs_ok st = true -> (forall z, In z zs -> In z (zones st)) ->
  map (fun zw : Zone * Warehouse => Zone_id (fst zw)) (flat_map (with_warehouse st) zs)
  = map Zone_id zs.
Proof.
  intros Hrefs. induction zs as [|z zs IH]; intros Hin; [reflexivity|].
  destruct (with_warehouse_one st z Hrefs (Hin z (or_introl eq_refl))) as [w E].
  cbn [flat_map]. rewrite E. simpl. f_equal. apply IH.
  intros z' Hz'. apply Hin. now right.
Qed.

Lemma sales_zone_in_active (st : Store) (z : Zone) :
  get_sales_zone st = Some z -> In z (filter Zone_is_active (zones st)).
Proof.
  unfold get_sales_zone.
  destruct (first (filter _ (zones st))) as [z0|] eqn:E.
  - intros [= <-]. apply first_In, filter_In in E. destruct E as [Hin Hn].
    apply andb_true_iff in Hn. apply filter_In. tauto.
  - apply first_In.
Qed.

(** X20.  When the foreign keys resolve, [get_all_zones] lists the active
    zones of the store, each once and in their order, and
    [get_zones_by_warehouse] lists those of them that belong to the
    warehouse; every zone listed for a warehouse is listed among all zones,
    and so is the zone that a checkout sells from. *)
Theorem zone_listings (st : Store) :
  Refs_ok st = true ->
  map zone_entry_id (get_all_zones st)
  = map Zone_id (filter Zone_is_active (zones st))
  /\ (forall warehouse_id,
        map zone_entry_id (get_zones_by_warehouse st warehouse_id)
        = map Zone_id
            (filter (fun z => (Zone_warehouse z =? warehouse_id) && Zone_is_active z)
                    (zones st))
        /\ forall id, In id (map zone_entry_id (get_zones_by_warehouse st warehouse_id))
                      -> In id (map zone_entry_id (get_all_zones st)))
  /\ (forall z, get_sales_zone st = Some z ->
                In (Zone_id z) (map zone_entry_id (get_all_zones st))).
Proof.
  intros Hrefs.
  assert (map zone_entry_id (get_all_zones st)
          = map Zone_id (filter Zone_is_active (zones st))) as Hall.
  { unfold get_all_zones. rewrite map_map. cbn [zone_entry_id].
    apply (joined_zone_ids st _ Hrefs). intros z Hz. now apply filter_In in Hz. }
  split; [exact Hall|]. split.
  - intros warehouse_id.
    assert (map zone_entry_id (get_zones_by_warehouse st warehouse_id)
            = map Zone_id
                (filter (fun z => (Zone_warehouse z =? warehouse_id)
                                  && Zone_is_active z) (zones st))) as Hw.
    { unfold get_zones_by_warehouse. rewrite map_map. cbn [zone_entry_id].
      apply (joined_zone_ids st _ Hrefs). intros z Hz. now apply filter_In in Hz. }
    split; [exact Hw|]. intros id. rewrite Hw, Hall, !in_map_iff.
    intros [z [E Hz]]. exists z. split; [exact E|].
    apply filter_In in Hz. destruct Hz as [Hin Hf].
    apply andb_true_iff in Hf. apply filter_In. tauto.
  - intros z Hz. rewrite Hall. apply in_map. now apply sales_zone_in_active.
Qed.

Example shop_Refs_ok : Refs_ok shop = true.
Proof. reflexivity. Qed.

Lemma zone_listings_witness :
  map zone_entry_id (get_all_zones shop) = [1; 2]
  /\ In (Zone_id ventas) (map zone_entry_id (get_all_zones shop)).
Proof.
  destruct (zone_listings shop eq_refl) as [H1 [_ H3]].
  split; [exact H1|]. apply H3. reflexivity.
Defined.

Example zones_of_the_shop :
  get_all_zones shop
  = [{| zone_entry_id := 1; zone_entry_name := "Zona A (en Bodega Central)" |};
     {| zone_entry_id := 2; zone_entry_name := "Sala de Ventas (en Bodega Central)" |}]
  /\ get_zones_by_warehouse shop 1
     = [{| zone_entry_id := 1; zone_entry_name := "Zona A" |};
        {| zone_entry_id := 2; zone_entry_name := "Sala de Ventas" |}]
  /\ get_zones_by_warehouse shop 9 = [].
Proof. repeat split. Qed.
